(** * Battery calculator: simulation and scenario engine

    A shallow embedding of [src/utils/calculations.ts] and of the scenario
    generator module that imports it ([analyzeSituation],
    [generateScenarios]).  JavaScript numbers
    are modelled as exact rationals [Q]; the two places where the code can
    produce [Infinity] carry an explicit extended number [num].  Hours
    obtained by [Math.floor] are integers [Z]; the JavaScript remainder
    [%] is [Z.rem].  Display strings built from template literals (the
    recommendation texts, scenario names and descriptions) are modelled by
    their tags. *)

From Stdlib Require Import QArith Qround Qminmax ZArith List Bool String Lia.
From Stdlib Require Import Permutation Sorting.Sorted Lqa.
Import ListNotations.

Open Scope Q_scope.
Open Scope string_scope.
Open Scope list_scope.

(** ** Number helpers *)

(** JavaScript [a < b] on numbers. *)
Definition Qltb (a b : Q) : bool := negb (Qle_bool b a).

(** [Math.round(x * 10) / 10]: [Math.round] rounds half-way cases up. *)
Definition round1 (x : Q) : Q := inject_Z (Qfloor (x * 10 + (1 # 2))) / 10.

(** A JavaScript number that may be [+Infinity]. *)
Inductive num : Type :=
| Fin (q : Q)
| PosInf.

Definition num_ltb (a b : num) : bool :=
  match a, b with
  | Fin x, Fin y => Qltb x y
  | Fin _, PosInf => true
  | PosInf, _ => false
  end.

Definition num_leb (a b : num) : bool :=
  match a, b with
  | Fin x, Fin y => Qle_bool x y
  | _, PosInf => true
  | PosInf, Fin _ => false
  end.

(** [isFinite(x) ? x : 999] *)
Definition finiteOr999 (a : num) : Q :=
  match a with Fin x => x | PosInf => 999 end.

(** ** Types ([src/types/index.ts]) *)

Record BatterySettings := mkBattery {
  capacity : Q;        (* kWh *)
  minDischarge : Q;    (* % *)
  maxCharge : Q;       (* % *)
  currentCharge : Q;   (* % *)
  chargingPower : Q    (* kW *)
}.

Record TimeRange := mkRange {
  start : Q;
  end_ : Q
}.

Record Appliance := mkAppliance {
  id : string;
  name : string;
  nameUa : string;
  icon : string;
  power : Q;
  enabled : bool;
  color : string;
  schedule : list TimeRange
}.

Record PowerSchedule := mkSchedule {
  periods : list TimeRange
}.

Record TimelinePoint := mkPoint {
  time : Z;
  batteryLevel : Q;
  consumption : Q;
  charging : bool;
  point_appliances : list string
}.

(** The recommendation strings, by the rule that emits them. *)
Inductive Recommendation :=
| RecWillDeplete
| RecLowCharge
| RecUnder4Hours
| RecConsiderDisabling (names : list string)
| RecMustShedLoad
| RecOptimal.

Record CalculationResult := mkResult {
  usableEnergy : Q;
  currentAvailableEnergy : Q;
  currentConsumption : Q;
  hoursRemaining : Q;
  chargeTime : Q;
  timelineData : list TimelinePoint;
  canSurviveOutage : bool;
  recommendations : list Recommendation
}.

(** ** [src/utils/calculations.ts] *)

Module Calculations.

Definition isPowerAvailable (hour : Q) (periods : list TimeRange) : bool :=
  match periods with
  | [] => false
  | _ =>
    existsb (fun period =>
      if Qle_bool (start period) (end_ period)
      then Qle_bool (start period) hour && Qltb hour (end_ period)
      else Qle_bool (start period) hour || Qltb hour (end_ period))
      periods
  end.

Definition isApplianceActive (appliance : Appliance) (hour : Q) : bool :=
  match schedule appliance with
  | [] => true
  | _ =>
    existsb (fun range =>
      if Qle_bool (start range) (end_ range)
      then Qle_bool (start range) hour && Qltb hour (end_ range)
      else Qle_bool (start range) hour || Qltb hour (end_ range))
      (schedule appliance)
  end.

(** [xs.reduce((sum, a) => sum + a.power, 0)] *)
Definition sumPower (xs : list Appliance) : Q :=
  fold_left (fun sum a => sum + power a) xs 0.

(** One iteration of the [for (let i = 0; i < 24; i++)] loop of
    [generateTimeline] per step; [batteryLevel] is the loop's mutable
    level (kept unrounded between iterations). *)
Fixpoint timelineLoop (battery : BatterySettings) (appliances : list Appliance)
    (powerPeriods : list TimeRange) (startHour : Z) (i : Z) (fuel : nat)
    (batteryLevel : Q) : list TimelinePoint :=
  match fuel with
  | O => []
  | S fuel' =>
    let hour := Z.rem (startHour + i) 24 in
    let isPowerOn := isPowerAvailable (inject_Z hour) powerPeriods in
    let activeAppliances :=
      filter (fun a => enabled a && isApplianceActive a (inject_Z hour)) appliances in
    let applianceConsumption := sumPower activeAppliances in
    let batteryConsumption := if isPowerOn then 0 else applianceConsumption in
    let batteryLevel' :=
      if isPowerOn then
        let chargeRate := (chargingPower battery / capacity battery) * 100 in
        Qmin (maxCharge battery) (batteryLevel + chargeRate)
      else
        let dischargeRate := (batteryConsumption / capacity battery) * 100 in
        Qmax (minDischarge battery) (batteryLevel - dischargeRate) in
    mkPoint hour (round1 batteryLevel') batteryConsumption isPowerOn
            (map nameUa activeAppliances)
      :: timelineLoop battery appliances powerPeriods startHour (i + 1) fuel' batteryLevel'
  end.

Definition generateTimeline (battery : BatterySettings) (appliances : list Appliance)
    (powerPeriods : list TimeRange) (currentHour : Q) : list TimelinePoint :=
  timelineLoop battery appliances powerPeriods (Qfloor currentHour) 0 24
               (currentCharge battery).

Definition checkSurvival (timeline : list TimelinePoint) (minDischarge : Q) : bool :=
  forallb (fun point => Qltb minDischarge (batteryLevel point)) timeline.

(** The [for (const period of powerPeriods)] loop computing the hours until
    the next power-on period, starting from [Infinity]. *)
Definition hoursUntilPowerOnLoop (powerPeriods : list TimeRange) (currentHour : Q) : num :=
  fold_left (fun best period =>
    let hours := start period - currentHour in
    let hours := if Qle_bool hours 0 then hours + 24 else hours in
    if num_ltb (Fin hours) best then Fin hours else best)
    powerPeriods PosInf.

Definition hoursUntilPowerOn (powerPeriods : list TimeRange) (currentHour : Q) : num :=
  if isPowerAvailable currentHour powerPeriods then Fin 0
  else hoursUntilPowerOnLoop powerPeriods currentHour.

Definition generateRecommendations (battery : BatterySettings)
    (appliances : list Appliance) (hoursRemaining : num) (canSurvive : bool)
    (powerPeriods : list TimeRange) (currentHour : Q) : list Recommendation :=
  let r1 := if negb canSurvive then [RecWillDeplete] else [] in
  let r2 := if Qltb (currentCharge battery) 50 then [RecLowCharge] else [] in
  let r3 := if num_ltb hoursRemaining (Fin 4) && num_ltb hoursRemaining PosInf
            then [RecUnder4Hours] else [] in
  let enabledAppliances := filter enabled appliances in
  let highPowerAppliances := filter (fun a => Qltb 1 (power a)) enabledAppliances in
  let r4 := if (0 <? List.length highPowerAppliances)%nat && Qltb (currentCharge battery) 40
            then [RecConsiderDisabling (map nameUa highPowerAppliances)] else [] in
  let hup := hoursUntilPowerOn powerPeriods currentHour in
  let r5 := if num_ltb hoursRemaining hup && (1 <? List.length enabledAppliances)%nat
            then [RecMustShedLoad] else [] in
  let recs := r1 ++ r2 ++ r3 ++ r4 ++ r5 in
  match recs with
  | [] => [RecOptimal]
  | _ => recs
  end.

Definition calculateBatteryStatus (battery : BatterySettings)
    (appliances : list Appliance) (powerSchedule : PowerSchedule)
    (currentHour : Q) : CalculationResult :=
  let usablePercentage := maxCharge battery - minDischarge battery in
  let usableEnergy := (capacity battery * usablePercentage) / 100 in
  let currentAvailableEnergy :=
    (capacity battery * Qmax 0 (currentCharge battery - minDischarge battery)) / 100 in
  let isPowerOnNow := isPowerAvailable (inject_Z (Qfloor currentHour)) (periods powerSchedule) in
  let enabledAppliances := filter enabled appliances in
  let activeNow := filter (fun a => isApplianceActive a currentHour) enabledAppliances in
  let applianceConsumption := sumPower activeNow in
  let currentConsumption := if isPowerOnNow then 0 else applianceConsumption in
  let hoursRemaining :=
    if Qltb 0 currentConsumption
    then Fin (Qmax 0 (currentAvailableEnergy / currentConsumption))
    else PosInf in
  let energyToFull := (capacity battery * (maxCharge battery - currentCharge battery)) / 100 in
  let chargeTime :=
    if Qltb 0 (chargingPower battery) then Fin (energyToFull / chargingPower battery)
    else PosInf in
  let timelineData :=
    generateTimeline battery appliances (periods powerSchedule) currentHour in
  let canSurviveOutage := checkSurvival timelineData (minDischarge battery) in
  let recommendations :=
    generateRecommendations battery appliances hoursRemaining canSurviveOutage
                            (periods powerSchedule) currentHour in
  mkResult usableEnergy currentAvailableEnergy currentConsumption
    (finiteOr999 hoursRemaining) (finiteOr999 chargeTime)
    timelineData canSurviveOutage recommendations.

(** The four shapes of the string [formatHours] returns:
    ['∞'], [`${m} хв`], [`${h} год`] and [`${h} год ${m} хв`]. *)
Inductive Formatted :=
| FInfinity
| FMinutes (m : Z)
| FHours (h : Z)
| FHoursMinutes (h m : Z).

Definition formatHours (hours : num) : Formatted :=
  match hours with
  | PosInf => FInfinity
  | Fin x =>
    if Qltb 100 x then FInfinity
    else
      let h := Qfloor x in
      let m := Qfloor ((x - inject_Z h) * 60 + (1 # 2)) in
      if (h =? 0)%Z then FMinutes m
      else if (m =? 0)%Z then FHours h
      else FHoursMinutes h m
  end.

End Calculations.

(** ** The scenario generator *)

Module Scenarios.
Import Calculations.

Inductive Tag := Comfort | Balanced | Economy | Emergency.

(** [name], [description] and [icon] are display text and are omitted. *)
Record Scenario := mkScenario {
  sc_id : string;
  tag : Tag;
  sc_appliances : list Appliance;
  feasible : bool;
  minBatteryLevel : num;
  minBatteryTime : Z;
  energyUsedKwh : Q
}.

Record SituationSummary := mkSituation {
  batteryPercent : Q;
  availableEnergyKwh : Q;
  totalOutageHours : nat;
  isPowerOnNow : bool;
  hoursToNextPowerOn : nat;
  hoursToNextOutage : nat
}.

Definition isPowerOn (hour : Q) (periods : list TimeRange) : bool :=
  match periods with
  | [] => false
  | _ =>
    existsb (fun p =>
      if Qle_bool (start p) (end_ p)
      then Qle_bool (start p) hour && Qltb hour (end_ p)
      else Qle_bool (start p) hour || Qltb hour (end_ p))
      periods
  end.

(** [{ enabled?: boolean; schedule?: TimeRange[] }] *)
Record Override := mkOverride {
  ov_enabled : option bool;
  ov_schedule : option (list TimeRange)
}.

(** An object literal [Record<string, Override>], as its list of entries. *)
Definition Overrides := list (string * Override).

(** [overrides[key]] *)
Fixpoint lookupOverride (key : string) (overrides : Overrides) : option Override :=
  match overrides with
  | [] => None
  | (k, o) :: rest => if String.eqb k key then Some o else lookupOverride key rest
  end.

Definition applyOverrides (base : list Appliance) (overrides : Overrides) : list Appliance :=
  map (fun a =>
    match lookupOverride (id a) overrides with
    | None => a
    | Some o =>
      mkAppliance (id a) (name a) (nameUa a) (icon a) (power a)
        (match ov_enabled o with Some e => e | None => enabled a end)
        (color a)
        (match ov_schedule o with Some sch => sch | None => schedule a end)
    end) base.

Record SimResult := mkSim {
  sim_feasible : bool;
  sim_minLevel : num;
  sim_minTime : Z;
  sim_energyUsed : Q
}.

(** [Math.round(x * 10) / 10] on a number that may be [Infinity]. *)
Definition num_round1 (x : num) : num :=
  match x with Fin q => Fin (round1 q) | PosInf => PosInf end.

Definition simulate (battery : BatterySettings) (appliances : list Appliance)
    (powerSchedule : PowerSchedule) (currentHour : Q) : SimResult :=
  let result := calculateBatteryStatus battery appliances powerSchedule currentHour in
  let '(minLevel, minTime) :=
    fold_left (fun acc p =>
      let '(minLevel, minTime) := acc in
      if num_ltb (Fin (batteryLevel p)) minLevel
      then (Fin (batteryLevel p), time p) else (minLevel, minTime))
      (timelineData result) (PosInf, 0%Z) in
  let energyUsed :=
    fold_left (fun sum p => sum + consumption p)
      (filter (fun p => negb (charging p)) (timelineData result)) 0 in
  mkSim (canSurviveOutage result) (num_round1 minLevel) minTime (round1 energyUsed).

(** [for (let i = from; i < from + fuel; i++) if (found(i)) { ...; break; }]:
    the first index found. *)
Fixpoint scanFirst (found : Z -> bool) (i : nat) (fuel : nat) : option nat :=
  match fuel with
  | O => None
  | S fuel' => if found (Z.of_nat i) then Some i else scanFirst found (S i) fuel'
  end.

Definition analyzeSituation (battery : BatterySettings) (powerSchedule : PowerSchedule)
    (currentHour : Q) : SituationSummary :=
  let startHour := Qfloor currentHour in
  let ps := periods powerSchedule in
  let availableEnergyKwh :=
    (capacity battery * Qmax 0 (currentCharge battery - minDischarge battery)) / 100 in
  let totalOutageHours :=
    fold_left (fun total i =>
      if negb (isPowerOn (inject_Z (Z.rem (startHour + Z.of_nat i) 24)) ps)
      then S total else total) (seq 0 24) 0%nat in
  let isPowerOnNow := isPowerOn (inject_Z startHour) ps in
  let hoursToNextPowerOn :=
    if negb isPowerOnNow then
      let h := match scanFirst (fun i => isPowerOn (inject_Z (Z.rem (startHour + i) 24)) ps)
                                1 24 with
               | Some i => i
               | None => 0%nat
               end in
      if Nat.eqb h 0 then 24%nat else h
    else 0%nat in
  let hoursToNextOutage :=
    if isPowerOnNow then
      match scanFirst (fun i => negb (isPowerOn (inject_Z (Z.rem (startHour + i) 24)) ps))
                      1 24 with
      | Some i => i
      | None => 0%nat
      end
    else 0%nat in
  mkSituation (currentCharge battery) (round1 availableEnergyKwh) totalOutageHours
              isPowerOnNow hoursToNextPowerOn hoursToNextOutage.

(** Override literals: [{ enabled: b, schedule: [...] }] and [{ enabled: b }]. *)
Definition ovOn (sch : list TimeRange) : Override := mkOverride (Some true) (Some sch).
Definition ovOff : Override := mkOverride (Some false) None.

(** A [{ start, end }] literal. *)
Definition rg (s e : Q) : TimeRange := mkRange s e.

(** The sequence of [add(id, icon, name, tag, description, overrides)] calls
    of [generateScenarios], in push order, as [(id, tag, overrides)]. *)
Definition candidates (battery : BatterySettings) (situation : SituationSummary)
    (startHour : Z) : list (string * Tag * Overrides) :=
  let isNight := (23 <=? startHour)%Z || (startHour <? 6)%Z in
  let isMorning := (6 <=? startHour)%Z && (startHour <? 10)%Z in
  let isDay := (10 <=? startHour)%Z && (startHour <? 17)%Z in
  let isEvening := (17 <=? startHour)%Z && (startHour <? 23)%Z in
  let cc := currentCharge battery in
  let batteryHigh := Qle_bool 70 cc in
  let batteryMedium := Qle_bool 40 cc && Qltb cc 70 in
  let batteryLow := Qltb cc 40 in
  let batteryCritical := Qltb cc 20 in
  let totalOutageHours := totalOutageHours situation in
  (if batteryCritical && (0 <? totalOutageHours)%nat then
     [("critical", Emergency,
       [("heating", ovOn []); ("water", ovOff); ("elevator", ovOff); ("lighting", ovOff)])]
   else
     [("heating-only", Emergency,
       [("heating", ovOn []); ("water", ovOff); ("elevator", ovOff); ("lighting", ovOff)])])
  ++ [("basic-needs", Economy,
       [("heating", ovOn []); ("water", ovOn []); ("elevator", ovOff); ("lighting", ovOff)])]
  ++ (if (6 <? totalOutageHours)%nat then
        [("water-night-off", Economy,
          [("heating", ovOn []); ("water", ovOn [rg 6 23]);
           ("elevator", ovOn [rg 7 9; rg 18 20]); ("lighting", ovOff)])]
      else [])
  ++ (if isDay || isMorning then
        [("workday", Economy,
          [("heating", ovOn []); ("water", ovOn [rg 0 9; rg 17 24]);
           ("elevator", ovOn [rg 7 9; rg 17 20]); ("lighting", ovOff)])]
      else [])
  ++ (if (12 <=? totalOutageHours)%nat then
        [("long-outage", Economy,
          [("heating", ovOn []); ("water", ovOn [rg 6 9; rg 17 22]);
           ("elevator", ovOn [rg 7 9; rg 18 20]); ("lighting", ovOff)])]
      else [])
  ++ [("balanced", Balanced,
       [("heating", ovOn []); ("water", ovOn []);
        ("elevator", ovOn [rg 7 9; rg 18 20]); ("lighting", ovOff)])]
  ++ (if batteryHigh || batteryMedium then
        [("extended-elevator", Balanced,
          [("heating", ovOn []); ("water", ovOn []);
           ("elevator", ovOn [rg 6 10; rg 17 22]); ("lighting", ovOff)])]
      else [])
  ++ (if isMorning || (isNight && (4 <=? startHour)%Z) then
        [("morning-rush", Balanced,
          [("heating", ovOn []); ("water", ovOn []);
           ("elevator", ovOn [rg 6 10]); ("lighting", ovOn [rg 0 7])])]
      else [])
  ++ (if isNight || isEvening then
        [("night-light", Balanced,
          [("heating", ovOn []); ("water", ovOn [rg 5 24]);
           ("elevator", ovOff); ("lighting", ovOn [rg 18 24; rg 0 7])])]
      else [])
  ++ (if isEvening || isDay then
        [("evening-comfort", Comfort,
          [("heating", ovOn []); ("water", ovOn []);
           ("elevator", ovOn [rg 7 9; rg 17 22]); ("lighting", ovOn [rg 18 23])])]
      else [])
  ++ [("max-comfort", Comfort,
       [("heating", ovOn []); ("water", ovOn []);
        ("elevator", ovOn [rg 6 22]); ("lighting", ovOn [rg 17 24; rg 0 7])])]
  ++ (if batteryHigh && (0 <? totalOutageHours)%nat && (totalOutageHours <=? 8)%nat then
        [("full-power", Comfort,
          [("heating", ovOn []); ("water", ovOn []);
           ("elevator", ovOn []); ("lighting", ovOn [])])]
      else [])
  ++ (if (0 <? totalOutageHours)%nat && (totalOutageHours <=? 3)%nat && negb batteryLow then
        [("short-outage", Comfort,
          [("heating", ovOn []); ("water", ovOn []);
           ("elevator", ovOn [rg 6 23]); ("lighting", ovOn [rg 17 24; rg 0 7])])]
      else []).

(** The [add] helper: build the candidate's appliances and simulate them. *)
Definition add (battery : BatterySettings) (baseAppliances : list Appliance)
    (powerSchedule : PowerSchedule) (currentHour : Q)
    (c : string * Tag * Overrides) : Scenario :=
  let '(id, tag, overrides) := c in
  let appliances := applyOverrides baseAppliances overrides in
  let sim := simulate battery appliances powerSchedule currentHour in
  mkScenario id tag appliances (sim_feasible sim) (sim_minLevel sim)
             (sim_minTime sim) (sim_energyUsed sim).

Definition tagOrder (t : Tag) : Z :=
  match t with Comfort => 0 | Balanced => 1 | Economy => 2 | Emergency => 3 end.

(** The comparator passed to [scenarios.sort]. *)
Definition compareScenarios (a b : Scenario) : Z :=
  if negb (Bool.eqb (feasible a) (feasible b))
  then (if feasible a then -1 else 1)%Z
  else (tagOrder (tag a) - tagOrder (tag b))%Z.

(** [Array.prototype.sort] with a comparator: the language requires the sort
    to be stable, and a stable sort by a consistent comparator has a unique
    result; insertion sort computes it.  Each element is inserted after
    every element that does not compare greater than it. *)
Fixpoint insertBy {A} (cmp : A -> A -> Z) (x : A) (l : list A) : list A :=
  match l with
  | [] => [x]
  | y :: l' => if (0 <? cmp y x)%Z then x :: l else y :: insertBy cmp x l'
  end.

Definition sortBy {A} (cmp : A -> A -> Z) (l : list A) : list A :=
  fold_left (fun acc x => insertBy cmp x acc) l [].

(** The scenarios in push order, before sorting. *)
Definition pushedScenarios (battery : BatterySettings) (baseAppliances : list Appliance)
    (powerSchedule : PowerSchedule) (currentHour : Q) : list Scenario :=
  let startHour := Qfloor currentHour in
  let situation := analyzeSituation battery powerSchedule currentHour in
  map (add battery baseAppliances powerSchedule currentHour)
      (candidates battery situation startHour).

Definition generateScenarios (battery : BatterySettings) (baseAppliances : list Appliance)
    (powerSchedule : PowerSchedule) (currentHour : Q) : list Scenario :=
  sortBy compareScenarios (pushedScenarios battery baseAppliances powerSchedule currentHour).

End Scenarios.

(** ** [src/App.tsx]: the power schedule built from Yasno outage slots *)

Module App.

(** [YasnoSlot]: [start] and [end] in minutes from midnight. *)
Inductive SlotType := Definite | NotPlanned.

Record YasnoSlot := mkSlot {
  slot_start : Q;
  slot_end : Q;
  slot_type : SlotType
}.

Definition isNotPlanned (t : SlotType) : bool :=
  match t with NotPlanned => true | Definite => false end.

Definition buildScheduleFromYasno (todaySlots tomorrowSlots : list YasnoSlot)
    (startHour : Q) : PowerSchedule :=
  let periods :=
    fold_left (fun periods slot =>
      if negb (isNotPlanned (slot_type slot)) then periods
      else
        let s := slot_start slot / 60 in
        let e := slot_end slot / 60 in
        let cs := Qmax s startHour in
        let ce := Qmin e 24 in
        if Qltb cs ce then periods ++ [mkRange cs ce] else periods)
      todaySlots [] in
  let periods :=
    fold_left (fun periods slot =>
      if negb (isNotPlanned (slot_type slot)) then periods
      else
        let s := slot_start slot / 60 in
        let e := slot_end slot / 60 in
        let cs := Qmax s 0 in
        let ce := Qmin e startHour in
        if Qltb cs ce then periods ++ [mkRange cs ce] else periods)
      tomorrowSlots periods in
  mkSchedule periods.

End App.

(** ** Sample inputs *)

Definition demoBattery : BatterySettings := mkBattery 82 10 95 50 20.

Definition mkApp (id : string) (p : Q) (en : bool) (sch : list TimeRange) : Appliance :=
  mkAppliance id id id "" p en "" sch.

Definition demoAppliances : list Appliance :=
  [mkApp "water" 2 true []; mkApp "heating" 4 true [];
   mkApp "elevator" 3 true [mkRange 7 9; mkRange (37 # 2) (41 # 2)];
   mkApp "lighting" (2 # 5) false [mkRange 18 24; mkRange 0 6]].

Definition demoSchedule : PowerSchedule := mkSchedule [mkRange 6 14].

(** * Properties *)

Import Calculations Scenarios.

(** ** Number lemmas *)

Lemma Qltb_iff (a b : Q) : Qltb a b = true <-> a < b.
Proof.
  unfold Qltb. rewrite negb_true_iff. split; intro H.
  - apply Qnot_le_lt. intro H'. apply Qle_bool_iff in H'. congruence.
  - destruct (Qle_bool b a) eqn:E; [|reflexivity].
    apply Qle_bool_iff in E. exfalso. apply (Qlt_not_le a b); assumption.
Qed.

Lemma Qltb_false_iff (a b : Q) : Qltb a b = false <-> b <= a.
Proof.
  unfold Qltb. rewrite negb_false_iff. apply Qle_bool_iff.
Qed.

Lemma Qle_bool_false_iff (a b : Q) : Qle_bool a b = false <-> b < a.
Proof.
  split; intro H.
  - apply Qnot_le_lt. intro H'. apply Qle_bool_iff in H'. congruence.
  - destruct (Qle_bool a b) eqn:E; [|reflexivity].
    apply Qle_bool_iff in E. exfalso. apply (Qlt_not_le b a); assumption.
Qed.

Lemma round1_le (x y : Q) : x <= y -> round1 x <= round1 y.
Proof.
  intro H. unfold round1, Qdiv.
  apply Qmult_le_compat_r; [|discriminate].
  rewrite <- Zle_Qle. apply Qfloor_resp_le.
  apply Qplus_le_compat; [|apply Qle_refl].
  apply Qmult_le_compat_r; [assumption|discriminate].
Qed.

(** A bound with at most one decimal place is not moved by the rounding. *)
Lemma round1_one_decimal (k : Z) : round1 (inject_Z k / 10) == inject_Z k / 10.
Proof.
  unfold round1.
  assert (E : Qfloor (inject_Z k / 10 * 10 + (1 # 2)) = k).
  { unfold Qfloor, inject_Z, Qdiv, Qmult, Qplus, Qinv; simpl.
    rewrite Z.mul_1_r.
    symmetry. apply Z.div_unique with (r := 10%Z); lia. }
  rewrite E. reflexivity.
Qed.

(** ** The timeline loop *)

Lemma timelineLoop_length b apps ps sh i fuel lvl :
  List.length (timelineLoop b apps ps sh i fuel lvl) = fuel.
Proof.
  revert i lvl. induction fuel as [|fuel IH]; intros i lvl; simpl; [reflexivity|].
  rewrite IH. reflexivity.
Qed.

Lemma generateTimeline_length b apps ps h :
  List.length (generateTimeline b apps (periods ps) h) = 24%nat.
Proof. apply timelineLoop_length. Qed.

(** ** C1 *)

(** C1: [canSurviveOutage] holds exactly when each of the 24 timeline points
    has a level strictly above [minDischarge]. *)
Theorem canSurviveOutage_iff_all_above_floor (b : BatterySettings)
    (apps : list Appliance) (ps : PowerSchedule) (h : Q) :
  let r := calculateBatteryStatus b apps ps h in
  List.length (timelineData r) = 24%nat /\
  (canSurviveOutage r = true <->
   Forall (fun p => minDischarge b < batteryLevel p) (timelineData r)).
Proof.
  cbn zeta.
  change (timelineData (calculateBatteryStatus b apps ps h))
    with (generateTimeline b apps (periods ps) h).
  change (canSurviveOutage (calculateBatteryStatus b apps ps h))
    with (checkSurvival (generateTimeline b apps (periods ps) h) (minDischarge b)).
  split; [apply generateTimeline_length|].
  unfold checkSurvival. rewrite forallb_forall, Forall_forall.
  split; intros H p Hp; apply Qltb_iff; apply H; assumption.
Qed.

(** ** Time ranges *)

(** The per-range test written inline in [isPowerAvailable],
    [isApplianceActive] and [isPowerOn]. *)
Lemma range_test_iff (h : Q) (r : TimeRange) :
  (if Qle_bool (start r) (end_ r)
   then Qle_bool (start r) h && Qltb h (end_ r)
   else Qle_bool (start r) h || Qltb h (end_ r)) = true <->
  (start r <= end_ r /\ start r <= h /\ h < end_ r) \/
  (end_ r < start r /\ (start r <= h \/ h < end_ r)).
Proof.
  destruct (Qle_bool (start r) (end_ r)) eqn:E.
  - apply Qle_bool_iff in E.
    rewrite andb_true_iff, Qle_bool_iff, Qltb_iff. split.
    + intros [H1 H2]. left. auto.
    + intros [(_ & H1 & H2)|(H & _)]; [auto|]. exfalso. lra.
  - apply Qle_bool_false_iff in E.
    rewrite orb_true_iff, Qle_bool_iff, Qltb_iff. split.
    + intro H. right. auto.
    + intros [(H & _)|(_ & H)]; [exfalso; lra|exact H].
Qed.

Lemma isPowerAvailable_iff (h : Q) (rs : list TimeRange) :
  isPowerAvailable h rs = true <->
  exists r, In r rs /\
    ((start r <= end_ r /\ start r <= h /\ h < end_ r) \/
     (end_ r < start r /\ (start r <= h \/ h < end_ r))).
Proof.
  destruct rs as [|r0 rs'].
  - simpl. split; [discriminate|]. intros (r & [] & _).
  - unfold isPowerAvailable. rewrite existsb_exists. split.
    + intros (r & Hin & Hr). exists r. split; [exact Hin|]. apply range_test_iff. exact Hr.
    + intros (r & Hin & Hr). exists r. split; [exact Hin|]. apply range_test_iff. exact Hr.
Qed.

(** C3: the point-inclusion predicate over time ranges: false on no ranges,
    the union of the per-range tests (same-day [start <= h < end], overnight
    [h >= start || h < end]), shared by grid availability and appliance
    schedules; [{22, 6}] matches exactly [22, 24) and [0, 6) within the day,
    and a range with [start = end] matches nothing. *)
Theorem time_range_inclusion_semantics :
  (forall h, isPowerAvailable h [] = false) /\
  (forall h rs, isPowerAvailable h rs = true <->
     exists r, In r rs /\
       ((start r <= end_ r /\ start r <= h /\ h < end_ r) \/
        (end_ r < start r /\ (start r <= h \/ h < end_ r)))) /\
  (forall a h, schedule a <> [] -> isApplianceActive a h = isPowerAvailable h (schedule a)) /\
  (forall h rs, isPowerOn h rs = isPowerAvailable h rs) /\
  (forall h, 0 <= h < 24 ->
     (isPowerAvailable h [mkRange 22 6] = true <-> (22 <= h < 24 \/ 0 <= h < 6))) /\
  (forall s h, isPowerAvailable h [mkRange s s] = false).
Proof.
  split; [reflexivity|].
  split; [exact isPowerAvailable_iff|].
  split.
  { intros a h Hne. unfold isApplianceActive, isPowerAvailable.
    destruct (schedule a); [congruence|reflexivity]. }
  split; [reflexivity|].
  split.
  - intros h Hh. rewrite isPowerAvailable_iff. simpl. split.
    + intros (r & [<-|[]] & Hr); simpl in Hr; lra.
    + intro H. exists (mkRange 22 6). split; [left; reflexivity|]. simpl.
      right. split; [lra|]. lra.
  - intros s h. destruct (isPowerAvailable h [mkRange s s]) eqn:E; [|reflexivity].
    apply isPowerAvailable_iff in E. destruct E as (r & [<-|[]] & Hr).
    simpl in Hr. exfalso. lra.
Qed.

(** ** Clamping of the battery level *)

Lemma sumPower_nonneg (xs : list Appliance) :
  Forall (fun a => 0 <= power a) xs -> 0 <= sumPower xs.
Proof.
  unfold sumPower. intro H.
  assert (G : forall acc, 0 <= acc -> 0 <= fold_left (fun sum a => sum + power a) xs acc).
  { induction H as [|a xs' Ha _ IH]; intros acc Hacc; simpl; [exact Hacc|].
    apply IH. lra. }
  apply G. apply Qle_refl.
Qed.

Lemma charge_step_bounds (m M lvl r : Q) :
  0 <= r -> m <= lvl <= M -> m <= Qmin M (lvl + r) <= M.
Proof.
  intros Hr [H1 H2]. split.
  - apply Q.min_glb; lra.
  - apply Q.le_min_l.
Qed.

Lemma discharge_step_bounds (m M lvl d : Q) :
  0 <= d -> m <= lvl <= M -> m <= Qmax m (lvl - d) <= M.
Proof.
  intros Hd [H1 H2]. split.
  - apply Q.le_max_l.
  - apply Q.max_lub; lra.
Qed.

Lemma rate_nonneg (x c : Q) : 0 <= x -> 0 < c -> 0 <= x / c * 100.
Proof.
  intros Hx Hc. unfold Qdiv.
  apply Qmult_le_0_compat; [|discriminate].
  apply Qmult_le_0_compat; [exact Hx|].
  apply Qinv_le_0_compat. lra.
Qed.

Section Clamping.

Variable b : BatterySettings.
Variable apps : list Appliance.
Variable ps : list TimeRange.
Hypothesis Hcap : 0 < capacity b.
Hypothesis Hcp : 0 <= chargingPower b.
Hypothesis Hpow : Forall (fun a => 0 <= power a) apps.

Lemma active_power_nonneg (f : Appliance -> bool) :
  0 <= sumPower (filter f apps).
Proof.
  apply sumPower_nonneg. apply Forall_forall. intros a Ha.
  apply filter_In in Ha. destruct Ha as [Ha _].
  rewrite Forall_forall in Hpow. apply Hpow. exact Ha.
Qed.

Lemma timelineLoop_bounds (sh i : Z) (fuel : nat) (lvl : Q) :
  minDischarge b <= lvl <= maxCharge b ->
  Forall (fun p => round1 (minDischarge b) <= batteryLevel p <= round1 (maxCharge b))
    (timelineLoop b apps ps sh i fuel lvl).
Proof.
  revert i lvl. induction fuel as [|fuel IH]; intros i lvl Hlvl; [constructor|].
  cbn [timelineLoop].
  destruct (isPowerAvailable _ ps).
  - pose proof (charge_step_bounds (minDischarge b) (maxCharge b) lvl
                  (chargingPower b / capacity b * 100)
                  (rate_nonneg _ _ Hcp Hcap) Hlvl) as Hs.
    constructor; [|apply IH; exact Hs].
    cbn [batteryLevel]. split; apply round1_le; apply Hs.
  - pose proof (discharge_step_bounds (minDischarge b) (maxCharge b) lvl
                  (sumPower (filter (fun a => enabled a &&
                     isApplianceActive a (inject_Z (Z.rem (sh + i) 24))) apps)
                   / capacity b * 100)
                  (rate_nonneg _ _ (active_power_nonneg _) Hcap) Hlvl) as Hs.
    constructor; [|apply IH; exact Hs].
    cbn [batteryLevel]. split; apply round1_le; apply Hs.
Qed.

End Clamping.

(** C2 (as amended): for settings in the declared domain (positive capacity,
    non-negative charger and appliance powers, [currentCharge] within
    [[minDischarge, maxCharge]]) every timeline level lies between the two
    bounds rounded to one decimal, i.e. within [[minDischarge, maxCharge]]
    whenever those have at most one decimal place ([round1_one_decimal]). *)
Theorem timeline_levels_within_bounds (b : BatterySettings) (apps : list Appliance)
    (ps : PowerSchedule) (h : Q)
    (Hcap : 0 < capacity b) (Hcp : 0 <= chargingPower b)
    (Hpow : Forall (fun a => 0 <= power a) apps)
    (Hcc : minDischarge b <= currentCharge b <= maxCharge b) :
  Forall (fun p => round1 (minDischarge b) <= batteryLevel p <= round1 (maxCharge b))
    (timelineData (calculateBatteryStatus b apps ps h)).
Proof.
  change (timelineData (calculateBatteryStatus b apps ps h))
    with (generateTimeline b apps (periods ps) h).
  apply timelineLoop_bounds; assumption.
Qed.

Lemma timeline_levels_within_bounds_witness :
  (0 < capacity demoBattery /\ 0 <= chargingPower demoBattery /\
   Forall (fun a => 0 <= power a) demoAppliances /\
   minDischarge demoBattery <= currentCharge demoBattery <= maxCharge demoBattery) /\
  Forall (fun p => round1 (minDischarge demoBattery) <= batteryLevel p
                   <= round1 (maxCharge demoBattery))
    (timelineData (calculateBatteryStatus demoBattery demoAppliances demoSchedule 10)).
Proof.
  assert (Hpow : Forall (fun a => 0 <= power a) demoAppliances).
  { repeat constructor; simpl; discriminate. }
  assert (Hcc : minDischarge demoBattery <= currentCharge demoBattery <= maxCharge demoBattery).
  { split; simpl; discriminate. }
  split; [split; [reflexivity|split; [discriminate|split; assumption]]|].
  apply (timeline_levels_within_bounds demoBattery demoAppliances demoSchedule 10);
    [reflexivity|discriminate|exact Hpow|exact Hcc].
Defined.

(** C2 fails as stated: a [currentCharge] above [maxCharge] is only clamped
    from below on a discharging hour, so with no grid and no load the level
    stays at 100 above a ceiling of 95. *)
Lemma timeline_levels_within_bounds_counterexample :
  ~ (forall (b : BatterySettings) (apps : list Appliance) (ps : PowerSchedule) (h : Q),
       Forall (fun p => batteryLevel p <= maxCharge b /\ minDischarge b <= batteryLevel p)
         (timelineData (calculateBatteryStatus b apps ps h))).
Proof.
  intro H.
  specialize (H (mkBattery 100 10 95 100 20) [] (mkSchedule []) 0).
  vm_compute in H. inversion H as [|p l Hp Hl]. destruct Hp as [Hp _].
  vm_compute in Hp. apply Hp. reflexivity.
Qed.

(** ** Charge time *)

(** C5 (as amended): [chargeTime] is a plain number (the [Infinity] of a
    non-positive charger power is replaced by 999); it is
    [capacity * (maxCharge - currentCharge) / 100 / chargingPower] whenever
    the charger power is positive, including a full battery (where it is 0
    or negative), and 999 when the charger power is zero or negative. *)
Theorem chargeTime_formula_or_sentinel (b : BatterySettings) (apps : list Appliance)
    (ps : PowerSchedule) (h : Q) :
  let r := calculateBatteryStatus b apps ps h in
  (0 < chargingPower b ->
   chargeTime r = capacity b * (maxCharge b - currentCharge b) / 100 / chargingPower b) /\
  (chargingPower b <= 0 -> chargeTime r = 999).
Proof.
  cbn zeta.
  change (chargeTime (calculateBatteryStatus b apps ps h))
    with (finiteOr999
            (if Qltb 0 (chargingPower b)
             then Fin (capacity b * (maxCharge b - currentCharge b) / 100 / chargingPower b)
             else PosInf)).
  destruct (Qltb 0 (chargingPower b)) eqn:E.
  - apply Qltb_iff in E. split; [reflexivity|]. intro H. exfalso. lra.
  - apply Qltb_false_iff in E. split; [|reflexivity]. intro H. exfalso. lra.
Qed.

(** C5 fails as stated: with a charger of 20 kW and a full battery
    ([currentCharge = maxCharge = 95]) the charge time is 0, not 999. *)
Lemma chargeTime_full_battery_counterexample :
  ~ (forall (b : BatterySettings) (apps : list Appliance) (ps : PowerSchedule) (h : Q),
       maxCharge b <= currentCharge b -> chargeTime (calculateBatteryStatus b apps ps h) = 999).
Proof.
  intro H.
  specialize (H (mkBattery 82 10 95 95 20) [] (mkSchedule []) 0 (Qle_refl 95)).
  vm_compute in H. discriminate H.
Qed.

(** ** Hours until power returns (recommendations) *)

Lemma num_leb_refl (a : num) : num_leb a a = true.
Proof. destruct a; simpl; [apply Qle_bool_iff, Qle_refl|reflexivity]. Qed.

Lemma num_leb_trans (a b c : num) :
  num_leb a b = true -> num_leb b c = true -> num_leb a c = true.
Proof.
  destruct a, b, c; simpl; try discriminate; try reflexivity.
  rewrite !Qle_bool_iff. apply Qle_trans.
Qed.

Lemma num_ltb_false_leb (a b : num) : num_ltb a b = false -> num_leb b a = true.
Proof.
  destruct a, b; simpl; try discriminate; try reflexivity.
  unfold Qltb. rewrite negb_false_iff. auto.
Qed.

Section MinLoop.

Variable c : TimeRange -> Q.
Let step (best : num) (period : TimeRange) : num :=
  if num_ltb (Fin (c period)) best then Fin (c period) else best.

Lemma step_le_best (best : num) (p : TimeRange) : num_leb (step best p) best = true.
Proof.
  unfold step. destruct (num_ltb (Fin (c p)) best) eqn:E; [|apply num_leb_refl].
  destruct best; simpl in *; [|reflexivity].
  apply Qltb_iff in E. apply Qle_bool_iff. apply Qlt_le_weak. exact E.
Qed.

Lemma step_le_new (best : num) (p : TimeRange) : num_leb (step best p) (Fin (c p)) = true.
Proof.
  unfold step. destruct (num_ltb (Fin (c p)) best) eqn:E; [apply num_leb_refl|].
  apply num_ltb_false_leb. exact E.
Qed.

Lemma fold_step_le_acc (l : list TimeRange) (acc : num) :
  num_leb (fold_left step l acc) acc = true.
Proof.
  revert acc. induction l as [|p l IH]; intro acc; simpl; [apply num_leb_refl|].
  eapply num_leb_trans; [apply IH|apply step_le_best].
Qed.

Lemma fold_step_le_each (l : list TimeRange) (acc : num) (p : TimeRange) :
  In p l -> num_leb (fold_left step l acc) (Fin (c p)) = true.
Proof.
  revert acc. induction l as [|q l IH]; intros acc Hin; [destruct Hin|].
  simpl. destruct Hin as [<-|Hin]; [|apply IH; exact Hin].
  eapply num_leb_trans; [apply fold_step_le_acc|apply step_le_new].
Qed.

Lemma fold_step_attained (l : list TimeRange) (acc : num) :
  fold_left step l acc = acc \/ exists p, In p l /\ fold_left step l acc = Fin (c p).
Proof.
  revert acc. induction l as [|q l IH]; intro acc; simpl; [left; reflexivity|].
  destruct (IH (step acc q)) as [E|(p & Hp & E)].
  - rewrite E. unfold step. destruct (num_ltb (Fin (c q)) acc).
    + right. exists q. split; [left; reflexivity|reflexivity].
    + left. reflexivity.
  - right. exists p. split; [right; exact Hp|exact E].
Qed.

End MinLoop.

Lemma in_nonempty_or_optimal (x : Recommendation) (l : list Recommendation) :
  In x (match l with [] => [RecOptimal] | _ => l end) <->
  In x l \/ (l = [] /\ x = RecOptimal).
Proof.
  destruct l as [|r l]; simpl; intuition congruence.
Qed.

Lemma shed_load_emitted_iff (b : BatterySettings) (apps : list Appliance)
    (hr : num) (cs : bool) (pp : list TimeRange) (h : Q) :
  In RecMustShedLoad (generateRecommendations b apps hr cs pp h) <->
  num_ltb hr (hoursUntilPowerOn pp h) && (1 <? List.length (filter enabled apps))%nat = true.
Proof.
  unfold generateRecommendations. cbn zeta.
  rewrite in_nonempty_or_optimal, !in_app_iff.
  repeat match goal with
         | |- context [if ?c then [_] else []] => destruct c
         end;
  simpl; intuition (try congruence); destruct H0; discriminate.
Qed.

(** C7: [hoursUntilPowerOn] is 0 when the grid is on at the reference hour;
    otherwise it is the least, over the power periods, of
    [period.start - referenceHour] plus 24 when that is [<= 0] ([Infinity]
    when there are no periods); and the shed-load warning is emitted exactly
    when [hoursRemaining < hoursUntilPowerOn] with more than one appliance
    enabled. *)
Theorem hoursUntilPowerOn_and_shed_load_warning (b : BatterySettings)
    (apps : list Appliance) (hr : num) (cs : bool) (pp : list TimeRange) (h : Q) :
  (isPowerAvailable h pp = true -> hoursUntilPowerOn pp h = Fin 0) /\
  (isPowerAvailable h pp = false ->
     (pp = [] -> hoursUntilPowerOn pp h = PosInf) /\
     (forall p, In p pp ->
        num_leb (hoursUntilPowerOn pp h)
          (Fin (if Qle_bool (start p - h) 0 then start p - h + 24 else start p - h)) = true) /\
     (pp <> [] -> exists p, In p pp /\
        hoursUntilPowerOn pp h =
          Fin (if Qle_bool (start p - h) 0 then start p - h + 24 else start p - h))) /\
  (In RecMustShedLoad (generateRecommendations b apps hr cs pp h) <->
   num_ltb hr (hoursUntilPowerOn pp h) = true /\ (1 < List.length (filter enabled apps))%nat).
Proof.
  set (c := fun p => if Qle_bool (start p - h) 0 then start p - h + 24 else start p - h).
  assert (Hloop : hoursUntilPowerOnLoop pp h =
                  fold_left (fun best period =>
                    if num_ltb (Fin (c period)) best then Fin (c period) else best) pp PosInf).
  { reflexivity. }
  split; [|split].
  - intro Hon. unfold hoursUntilPowerOn. rewrite Hon. reflexivity.
  - intro Hoff. unfold hoursUntilPowerOn. rewrite Hoff, Hloop. split; [|split].
    + intros ->. reflexivity.
    + intros p Hp. apply (fold_step_le_each c). exact Hp.
    + intro Hne. destruct pp as [|p0 pp']; [congruence|].
      destruct (fold_step_attained c (p0 :: pp') PosInf) as [E|E]; [|exact E].
      exfalso.
      pose proof (fold_step_le_each c (p0 :: pp') PosInf p0 (or_introl eq_refl)) as Hle.
      cbv zeta in E. rewrite E in Hle. discriminate Hle.
  - rewrite shed_load_emitted_iff, andb_true_iff, Nat.ltb_lt. reflexivity.
Qed.

(** ** Situation analysis *)

Lemma scanFirst_some (f : Z -> bool) (i fuel k : nat) :
  scanFirst f i fuel = Some k ->
  (i <= k < i + fuel)%nat /\ f (Z.of_nat k) = true /\
  (forall j, (i <= j < k)%nat -> f (Z.of_nat j) = false).
Proof.
  revert i. induction fuel as [|fuel IH]; intros i E; simpl in E; [discriminate|].
  destruct (f (Z.of_nat i)) eqn:Hf.
  - injection E as <-. split; [lia|]. split; [exact Hf|]. intros j Hj. lia.
  - destruct (IH (S i) E) as (Hk & Hfk & Hbefore). split; [lia|]. split; [exact Hfk|].
    intros j Hj. destruct (Nat.eq_dec j i) as [->|Hne]; [exact Hf|].
    apply Hbefore. lia.
Qed.

Lemma scanFirst_none (f : Z -> bool) (i fuel : nat) :
  scanFirst f i fuel = None ->
  forall j, (i <= j < i + fuel)%nat -> f (Z.of_nat j) = false.
Proof.
  revert i. induction fuel as [|fuel IH]; intros i E j Hj; [lia|].
  simpl in E. destruct (f (Z.of_nat i)) eqn:Hf; [discriminate|].
  destruct (Nat.eq_dec j i) as [->|Hne]; [exact Hf|].
  apply (IH (S i) E). lia.
Qed.

(** C8: [isPowerOnNow] is the grid state at [floor(referenceHour)];
    [hoursToNextPowerOn] is 0 when it is on, otherwise the first [i] in
    [1..24] with the grid on at [(floor(referenceHour) + i) % 24], or 24 when
    there is none, so never above 24; [hoursToNextOutage] is 0 whenever the
    grid is off now. *)
Theorem analyzeSituation_next_transitions (b : BatterySettings) (ps : PowerSchedule) (h : Q) :
  let s := analyzeSituation b ps h in
  let on (i : nat) := isPowerOn (inject_Z (Z.rem (Qfloor h + Z.of_nat i) 24)) (periods ps) in
  isPowerOnNow s = isPowerOn (inject_Z (Qfloor h)) (periods ps) /\
  (isPowerOnNow s = true -> hoursToNextPowerOn s = 0%nat) /\
  (isPowerOnNow s = false ->
     (exists i, (1 <= i <= 24)%nat /\ on i = true /\
                (forall j, (1 <= j < i)%nat -> on j = false) /\
                hoursToNextPowerOn s = i) \/
     ((forall i, (1 <= i <= 24)%nat -> on i = false) /\ hoursToNextPowerOn s = 24%nat)) /\
  (hoursToNextPowerOn s <= 24)%nat /\
  (isPowerOnNow s = false -> hoursToNextOutage s = 0%nat).
Proof.
  cbn zeta. unfold analyzeSituation. cbn zeta.
  cbn [isPowerOnNow hoursToNextPowerOn hoursToNextOutage].
  split; [reflexivity|].
  destruct (isPowerOn (inject_Z (Qfloor h)) (periods ps)) eqn:Hon.
  - simpl. split; [reflexivity|]. split; [discriminate|]. split; [lia|]. discriminate.
  - cbn [negb]. split; [discriminate|].
    destruct (scanFirst (fun i => isPowerOn (inject_Z (Z.rem (Qfloor h + i) 24)) (periods ps))
                        1 24) as [k|] eqn:E.
    + destruct (scanFirst_some _ _ _ _ E) as (Hk & Hfk & Hbefore).
      replace (Nat.eqb k 0) with false by (symmetry; apply Nat.eqb_neq; lia).
      cbv iota.
      split; [|split; [lia|reflexivity]].
      intros _. left. exists k. split; [lia|]. split; [exact Hfk|]. split; [|reflexivity].
      intros j Hj. apply Hbefore. exact Hj.
    + cbv iota. simpl Nat.eqb. cbv iota.
      split; [|split; [lia|reflexivity]].
      intros _. right. split; [|reflexivity].
      intros i Hi. apply (scanFirst_none _ _ _ E). lia.
Qed.

(** ** Total outage hours *)

Lemma fold_count_filter {A} (g : A -> bool) (l : list A) (n : nat) :
  fold_left (fun total i => if g i then S total else total) l n =
  (n + List.length (filter g l))%nat.
Proof.
  revert n. induction l as [|x l IH]; intro n; simpl; [lia|].
  destruct (g x); simpl; rewrite IH; lia.
Qed.

Lemma filter_length_map {A B} (P : B -> bool) (f : A -> B) (l : list A) :
  List.length (filter (fun x => P (f x)) l) = List.length (filter P (map f l)).
Proof.
  induction l as [|x l IH]; simpl; [reflexivity|].
  destruct (P (f x)); simpl; rewrite IH; reflexivity.
Qed.

Lemma filter_length_perm {A} (P : A -> bool) (l l' : list A) :
  Permutation l l' -> List.length (filter P l) = List.length (filter P l').
Proof.
  induction 1; simpl.
  - reflexivity.
  - destruct (P x); simpl; congruence.
  - destruct (P x), (P y); reflexivity.
  - congruence.
Qed.

Definition dayHours : list Z := map Z.of_nat (seq 0 24).

(** The 24 hours scanned from a start with residue [r] are the day's hours
    rotated by [r]. *)
Lemma scanned_hours_rotation (r : nat) :
  (r < 24)%nat ->
  map (fun i => ((Z.of_nat r + Z.of_nat i) mod 24)%Z) (seq 0 24) =
  skipn r dayHours ++ firstn r dayHours.
Proof.
  intro Hr.
  do 24 (destruct r as [|r]; [reflexivity|]). lia.
Qed.

Lemma scanned_hours_perm (sh : Z) :
  (0 <= sh)%Z ->
  Permutation (map (fun i => Z.rem (sh + Z.of_nat i) 24) (seq 0 24)) dayHours.
Proof.
  intro Hsh.
  set (r := Z.to_nat (sh mod 24)).
  assert (Hr : (r < 24)%nat).
  { unfold r. pose proof (Z.mod_pos_bound sh 24 ltac:(lia)). lia. }
  replace (map (fun i => Z.rem (sh + Z.of_nat i) 24) (seq 0 24))
    with (map (fun i => ((Z.of_nat r + Z.of_nat i) mod 24)%Z) (seq 0 24)).
  - rewrite scanned_hours_rotation by exact Hr.
    rewrite Permutation_app_comm, firstn_skipn. reflexivity.
  - apply map_ext. intro i.
    rewrite Z.rem_mod_nonneg by lia. unfold r.
    rewrite Z2Nat.id by (pose proof (Z.mod_pos_bound sh 24 ltac:(lia)); lia).
    apply Zplus_mod_idemp_l.
Qed.

Lemma totalOutageHours_count (b : BatterySettings) (ps : PowerSchedule) (h : Q) :
  0 <= h ->
  totalOutageHours (analyzeSituation b ps h) =
  List.length (filter (fun k => negb (isPowerOn (inject_Z (Z.of_nat k)) (periods ps)))
                      (seq 0 24)).
Proof.
  intro Hh.
  assert (Hsh : (0 <= Qfloor h)%Z).
  { change 0%Z with (Qfloor 0). apply Qfloor_resp_le. exact Hh. }
  change (totalOutageHours (analyzeSituation b ps h))
    with (fold_left (fun total i =>
            if negb (isPowerOn (inject_Z (Z.rem (Qfloor h + Z.of_nat i) 24)) (periods ps))
            then S total else total) (seq 0 24) 0%nat).
  rewrite (fold_count_filter
             (fun i => negb (isPowerOn (inject_Z (Z.rem (Qfloor h + Z.of_nat i) 24))
                                       (periods ps)))).
  rewrite Nat.add_0_l.
  rewrite (filter_length_map (fun z => negb (isPowerOn (inject_Z z) (periods ps)))
             (fun i => Z.rem (Qfloor h + Z.of_nat i) 24)).
  rewrite (filter_length_map (fun z => negb (isPowerOn (inject_Z z) (periods ps)))
             Z.of_nat).
  apply filter_length_perm. apply scanned_hours_perm. exact Hsh.
Qed.

(** C10: over reference hours in the spec's domain (any non-negative hour,
    in particular every hour in [[0, 24]], where the JavaScript [%] agrees
    with [mod]), [totalOutageHours] does not depend on the reference hour;
    it is the number of hours [0..23] at which the grid is off. *)
Theorem totalOutageHours_hour_independent (b : BatterySettings) (ps : PowerSchedule)
    (h1 h2 : Q) (H1 : 0 <= h1) (H2 : 0 <= h2) :
  totalOutageHours (analyzeSituation b ps h1) = totalOutageHours (analyzeSituation b ps h2) /\
  totalOutageHours (analyzeSituation b ps h1) =
  List.length (filter (fun k => negb (isPowerOn (inject_Z (Z.of_nat k)) (periods ps)))
                      (seq 0 24)).
Proof.
  rewrite !totalOutageHours_count by assumption. split; reflexivity.
Qed.

Lemma totalOutageHours_hour_independent_witness :
  (0 <= 10 /\ 0 <= 27 # 2) /\
  totalOutageHours (analyzeSituation demoBattery demoSchedule 10) =
  totalOutageHours (analyzeSituation demoBattery demoSchedule (27 # 2)) /\
  totalOutageHours (analyzeSituation demoBattery demoSchedule 10) =
  List.length (filter (fun k => negb (isPowerOn (inject_Z (Z.of_nat k)) (periods demoSchedule)))
                      (seq 0 24)).
Proof.
  split; [split; discriminate|].
  apply (totalOutageHours_hour_independent demoBattery demoSchedule 10 (27 # 2));
    discriminate.
Defined.

(** ** The stable sort *)

Section StableSort.

Variable A : Type.
Variable cmp : A -> A -> Z.
Variable K : A -> Z.
Hypothesis Hcmp : forall x y, (0 <? cmp y x)%Z = (K x <? K y)%Z.

Let keyLe (a b : A) : Prop := (K a <= K b)%Z.

Lemma insertBy_perm (x : A) (l : list A) : Permutation (insertBy cmp x l) (x :: l).
Proof.
  induction l as [|y l IH]; simpl; [reflexivity|].
  destruct (0 <? cmp y x)%Z; [reflexivity|].
  rewrite IH. apply perm_swap.
Qed.

Lemma sortBy_fold_perm (l acc : list A) :
  Permutation (fold_left (fun acc x => insertBy cmp x acc) l acc) (l ++ acc).
Proof.
  revert acc. induction l as [|x l IH]; intro acc; simpl; [reflexivity|].
  rewrite IH, insertBy_perm. symmetry. apply Permutation_middle.
Qed.

Lemma sortBy_perm (l : list A) : Permutation (sortBy cmp l) l.
Proof.
  unfold sortBy. rewrite sortBy_fold_perm, app_nil_r. reflexivity.
Qed.

Lemma insertBy_sorted (x : A) (l : list A) :
  StronglySorted keyLe l -> StronglySorted keyLe (insertBy cmp x l).
Proof.
  induction 1 as [|y l Hl IH Hy]; simpl.
  - repeat constructor.
  - rewrite Hcmp. destruct (Z.ltb_spec (K x) (K y)) as [Hlt|Hge].
    + constructor; [constructor; assumption|].
      constructor; [unfold keyLe; lia|].
      eapply Forall_impl; [|exact Hy]. unfold keyLe. intros z Hz. lia.
    + constructor; [exact IH|].
      apply (Permutation_Forall (Permutation_sym (insertBy_perm x l))).
      constructor; [unfold keyLe; lia|exact Hy].
Qed.

Lemma sortBy_fold_sorted (l acc : list A) :
  StronglySorted keyLe acc ->
  StronglySorted keyLe (fold_left (fun acc x => insertBy cmp x acc) l acc).
Proof.
  revert acc. induction l as [|x l IH]; intros acc Hacc; simpl; [exact Hacc|].
  apply IH. apply insertBy_sorted. exact Hacc.
Qed.

Lemma sortBy_sorted (l : list A) : StronglySorted keyLe (sortBy cmp l).
Proof. apply sortBy_fold_sorted. constructor. Qed.

Lemma insertBy_filter_other (k : Z) (x : A) (l : list A) :
  K x <> k ->
  filter (fun z => (K z =? k)%Z) (insertBy cmp x l) = filter (fun z => (K z =? k)%Z) l.
Proof.
  intro Hx. assert (E : (K x =? k)%Z = false) by (apply Z.eqb_neq; exact Hx).
  induction l as [|y l IH]; simpl.
  - rewrite E. reflexivity.
  - destruct (0 <? cmp y x)%Z; simpl; rewrite ?E; [reflexivity|].
    destruct (K y =? k)%Z; rewrite IH; reflexivity.
Qed.

Lemma filter_none_above (x : A) (l : list A) :
  Forall (fun z => (K x < K z)%Z) l -> filter (fun z => (K z =? K x)%Z) l = [].
Proof.
  induction 1 as [|z l Hz _ IH]; simpl; [reflexivity|].
  replace (K z =? K x)%Z with false by (symmetry; apply Z.eqb_neq; lia).
  exact IH.
Qed.

Lemma insertBy_filter_same (x : A) (l : list A) :
  StronglySorted keyLe l ->
  filter (fun z => (K z =? K x)%Z) (insertBy cmp x l) =
  filter (fun z => (K z =? K x)%Z) l ++ [x].
Proof.
  induction 1 as [|y l Hl IH Hy].
  - simpl. rewrite Z.eqb_refl. reflexivity.
  - cbn [insertBy]. rewrite Hcmp. destruct (Z.ltb_spec (K x) (K y)) as [Hlt|Hge].
    + assert (Hnone : filter (fun z => (K z =? K x)%Z) (y :: l) = []).
      { apply filter_none_above. constructor; [exact Hlt|].
        eapply Forall_impl; [|exact Hy]. unfold keyLe. intros z Hz. lia. }
      transitivity (x :: filter (fun z => (K z =? K x)%Z) (y :: l)).
      * simpl. rewrite Z.eqb_refl. reflexivity.
      * rewrite Hnone. reflexivity.
    + simpl. destruct (K y =? K x)%Z; simpl; rewrite IH; reflexivity.
Qed.

Lemma sortBy_fold_stable (k : Z) (l acc : list A) :
  StronglySorted keyLe acc ->
  filter (fun z => (K z =? k)%Z) (fold_left (fun acc x => insertBy cmp x acc) l acc) =
  filter (fun z => (K z =? k)%Z) acc ++ filter (fun z => (K z =? k)%Z) l.
Proof.
  revert acc. induction l as [|x l IH]; intros acc Hacc; simpl.
  - rewrite app_nil_r. reflexivity.
  - rewrite IH by (apply insertBy_sorted; exact Hacc).
    destruct (Z.eqb_spec (K x) k) as [<-|Hne].
    + rewrite insertBy_filter_same by exact Hacc. rewrite <- app_assoc. reflexivity.
    + rewrite insertBy_filter_other by exact Hne. reflexivity.
Qed.

Lemma sortBy_stable (k : Z) (l : list A) :
  filter (fun z => (K z =? k)%Z) (sortBy cmp l) = filter (fun z => (K z =? k)%Z) l.
Proof.
  unfold sortBy. rewrite sortBy_fold_stable by constructor. reflexivity.
Qed.

End StableSort.

Lemma StronglySorted_weaken {A} (R R' : A -> A -> Prop) (l : list A) :
  (forall x y, R x y -> R' x y) -> StronglySorted R l -> StronglySorted R' l.
Proof.
  intros HR. induction 1 as [|x l Hl IH Hx]; constructor; [exact IH|].
  eapply Forall_impl; [|exact Hx]. intros y. apply HR.
Qed.

(** ** Scenario ranking *)

(** The rank the comparator orders by: feasibility first, then the tier. *)
Definition scenarioKey (s : Scenario) : Z :=
  ((if feasible s then 0 else 4) + tagOrder (tag s))%Z.

Definition keyOf (f : bool) (t : Tag) : Z := ((if f then 0 else 4) + tagOrder t)%Z.

Lemma compareScenarios_key (x y : Scenario) :
  (0 <? compareScenarios y x)%Z = (scenarioKey x <? scenarioKey y)%Z.
Proof.
  unfold compareScenarios, scenarioKey.
  destruct (feasible x), (feasible y), (tag x), (tag y); reflexivity.
Qed.

Lemma same_keys_eqb (s : Scenario) (f : bool) (t : Tag) :
  Bool.eqb (feasible s) f && (tagOrder (tag s) =? tagOrder t)%Z =
  (scenarioKey s =? keyOf f t)%Z.
Proof.
  unfold scenarioKey, keyOf. destruct (feasible s), f, (tag s), t; reflexivity.
Qed.

Lemma scenarioKey_le_order (x y : Scenario) :
  (scenarioKey x <= scenarioKey y)%Z ->
  (feasible y = true -> feasible x = true) /\
  (feasible x = feasible y -> (tagOrder (tag x) <= tagOrder (tag y))%Z).
Proof.
  unfold scenarioKey.
  destruct (feasible x), (feasible y), (tag x), (tag y); simpl; intro H;
    split; intro H'; try reflexivity; try discriminate; lia.
Qed.

(** C4: [generateScenarios] returns its candidates reordered so that no
    infeasible scenario precedes a feasible one, scenarios of equal
    feasibility follow the tier order comfort, balanced, economy, emergency,
    and scenarios equal on both keys keep their push order. *)
Theorem generateScenarios_ranking (b : BatterySettings) (apps : list Appliance)
    (ps : PowerSchedule) (h : Q) :
  let out := generateScenarios b apps ps h in
  let pushed := pushedScenarios b apps ps h in
  Permutation out pushed /\
  StronglySorted (fun x y => (feasible y = true -> feasible x = true) /\
                             (feasible x = feasible y ->
                              (tagOrder (tag x) <= tagOrder (tag y))%Z)) out /\
  (forall f t,
     filter (fun s => Bool.eqb (feasible s) f && (tagOrder (tag s) =? tagOrder t)%Z) out =
     filter (fun s => Bool.eqb (feasible s) f && (tagOrder (tag s) =? tagOrder t)%Z) pushed).
Proof.
  cbn zeta. unfold generateScenarios.
  split; [apply sortBy_perm|]. split.
  - eapply StronglySorted_weaken; [|apply (sortBy_sorted _ _ scenarioKey compareScenarios_key)].
    intros x y. apply scenarioKey_le_order.
  - intros f t.
    rewrite !(filter_ext _ _ (fun s => same_keys_eqb s f t)).
    apply (sortBy_stable _ _ scenarioKey compareScenarios_key).
Qed.

(** ** Scenario count *)

Lemma length_if_one {A} (c : bool) (x : A) :
  List.length (if c then [x] else []) = Nat.b2n c.
Proof. destruct c; reflexivity. Qed.

Lemma length_if_either {A} (c : bool) (x y : A) :
  List.length (if c then [x] else [y]) = 1%nat.
Proof. destruct c; reflexivity. Qed.

Ltac split_comparisons :=
  repeat match goal with
  | |- context [Z.leb ?a ?b] => destruct (Z.leb_spec a b); try (exfalso; lia)
  | |- context [Z.ltb ?a ?b] => destruct (Z.ltb_spec a b); try (exfalso; lia)
  | |- context [Nat.leb ?a ?b] => destruct (Nat.leb_spec a b); try (exfalso; lia)
  | |- context [Nat.ltb ?a ?b] => destruct (Nat.ltb_spec a b); try (exfalso; lia)
  end.

Ltac split_battery_flags :=
  repeat match goal with
  | |- context [Qle_bool ?a ?b] => destruct (Qle_bool a b)
  | |- context [Qltb ?a ?b] => destruct (Qltb a b)
  end.

Lemma candidates_length (b : BatterySettings) (s : SituationSummary) (sh : Z) :
  (5 <= List.length (candidates b s sh) <= 9)%nat.
Proof.
  unfold candidates. cbn zeta.
  rewrite !length_app, length_if_either, !length_if_one.
  split_comparisons; split_battery_flags; simpl; lia.
Qed.

(** C6 (as amended): [generateScenarios] returns one scenario per candidate
    pushed by [add] (each simulated once), and there are between 5 and 9 of
    them. *)
Theorem generateScenarios_count (b : BatterySettings) (apps : list Appliance)
    (ps : PowerSchedule) (h : Q) :
  List.length (generateScenarios b apps ps h) =
  List.length (candidates b (analyzeSituation b ps h) (Qfloor h)) /\
  (5 <= List.length (generateScenarios b apps ps h) <= 9)%nat.
Proof.
  assert (E : List.length (generateScenarios b apps ps h) =
              List.length (candidates b (analyzeSituation b ps h) (Qfloor h))).
  { unfold generateScenarios. rewrite (Permutation_length (sortBy_perm _ _ _)).
    unfold pushedScenarios. rewrite length_map. reflexivity. }
  split; [exact E|]. rewrite E. apply candidates_length.
Qed.

(** C6 fails as stated: the sample inputs of the spec's worked example give
    9 scenarios, fewer than 12. *)
Lemma generateScenarios_count_counterexample :
  ~ (forall (b : BatterySettings) (apps : list Appliance) (ps : PowerSchedule) (h : Q),
       (12 <= List.length (generateScenarios b apps ps h) <= 16)%nat).
Proof.
  intro H. specialize (H demoBattery demoAppliances demoSchedule 10).
  vm_compute in H. lia.
Qed.

(** ** Heating in generated scenarios *)

Lemma candidates_override_heating (b : BatterySettings) (s : SituationSummary) (sh : Z) :
  Forall (fun c : string * Tag * Overrides =>
            lookupOverride "heating" (snd c) = Some (ovOn []))
         (candidates b s sh).
Proof.
  unfold candidates. cbn zeta.
  repeat (apply Forall_app; split);
    repeat match goal with
    | |- Forall _ (if ?c then _ else _) => destruct c
    end;
    repeat constructor.
Qed.

Lemma applyOverrides_heating (base : list Appliance) (ov : Overrides) (a : Appliance) :
  lookupOverride "heating" ov = Some (ovOn []) ->
  In a (applyOverrides base ov) -> id a = "heating" ->
  enabled a = true /\ schedule a = [].
Proof.
  intros Hov Hin Hid. unfold applyOverrides in Hin.
  apply in_map_iff in Hin. destruct Hin as (a0 & <- & _).
  destruct (lookupOverride (id a0) ov) as [o|] eqn:E.
  - simpl in Hid. rewrite Hid in E. rewrite Hov in E. injection E as <-.
    split; reflexivity.
  - simpl in Hid. rewrite Hid in E. congruence.
Qed.

(** C9: in every generated scenario, each appliance with id ["heating"] is
    enabled with an empty (always active) schedule. *)
Theorem generated_heating_always_on (b : BatterySettings) (apps : list Appliance)
    (ps : PowerSchedule) (h : Q) (s : Scenario) (a : Appliance)
    (Hs : In s (generateScenarios b apps ps h)) (Ha : In a (sc_appliances s))
    (Hid : id a = "heating") :
  enabled a = true /\ schedule a = [].
Proof.
  unfold generateScenarios in Hs.
  apply (Permutation_in _ (sortBy_perm _ _ _)) in Hs.
  unfold pushedScenarios in Hs. apply in_map_iff in Hs.
  destruct Hs as (c & <- & Hc).
  pose proof (proj1 (Forall_forall _ _) (candidates_override_heating _ _ _) c Hc) as Hov.
  destruct c as [[cid ctag] ov]. simpl in Hov, Ha.
  eapply applyOverrides_heating; eassumption.
Qed.

Lemma In_hd {A} (d : A) (l : list A) : l <> [] -> In (hd d l) l.
Proof. destruct l as [|x l]; [congruence|]. intros _. left. reflexivity. Qed.

Lemma generated_heating_always_on_witness :
  let out := generateScenarios demoBattery demoAppliances demoSchedule 10 in
  let s := hd (mkScenario "" Emergency [] false PosInf 0 0) out in
  let a := nth 1 (sc_appliances s) (mkApp "" 0 false []) in
  (In s out /\ In a (sc_appliances s) /\ id a = "heating") /\
  enabled a = true /\ schedule a = [].
Proof.
  cbn zeta.
  assert (Hs : In (hd (mkScenario "" Emergency [] false PosInf 0 0)
                      (generateScenarios demoBattery demoAppliances demoSchedule 10))
                  (generateScenarios demoBattery demoAppliances demoSchedule 10)).
  { apply In_hd. vm_compute. discriminate. }
  assert (Ha : In (nth 1 (sc_appliances (hd (mkScenario "" Emergency [] false PosInf 0 0)
                      (generateScenarios demoBattery demoAppliances demoSchedule 10)))
                       (mkApp "" 0 false []))
                  (sc_appliances (hd (mkScenario "" Emergency [] false PosInf 0 0)
                      (generateScenarios demoBattery demoAppliances demoSchedule 10)))).
  { apply nth_In. vm_compute. lia. }
  assert (Hid : id (nth 1 (sc_appliances (hd (mkScenario "" Emergency [] false PosInf 0 0)
                      (generateScenarios demoBattery demoAppliances demoSchedule 10)))
                       (mkApp "" 0 false [])) = "heating").
  { vm_compute. reflexivity. }
  split; [split; [exact Hs|split; [exact Ha|exact Hid]]|].
  exact (generated_heating_always_on demoBattery demoAppliances demoSchedule 10 _ _ Hs Ha Hid).
Defined.

(** * Further properties of the code *)

(** ** Timeline points *)

Lemma timelineLoop_points (b : BatterySettings) (apps : list Appliance)
    (ps : list TimeRange) (sh i : Z) (fuel : nat) (lvl : Q) :
  Forall (fun p =>
    let active := filter (fun a => enabled a && isApplianceActive a (inject_Z (time p))) apps in
    charging p = isPowerAvailable (inject_Z (time p)) ps /\
    consumption p = (if charging p then 0 else sumPower active) /\
    point_appliances p = map nameUa active)
    (timelineLoop b apps ps sh i fuel lvl).
Proof.
  revert i lvl. induction fuel as [|fuel IH]; intros i lvl; [constructor|].
  cbn [timelineLoop]. constructor; [|apply IH].
  cbn [charging consumption point_appliances time]. cbn zeta.
  split; [reflexivity|]. split; reflexivity.
Qed.

(** X1: each timeline point is charging exactly when the grid is available
    at its hour; a charging point draws nothing from the battery, otherwise
    it draws the summed power of the enabled appliances active at that hour,
    and it lists the names of exactly those appliances. *)
Theorem timeline_point_fields (b : BatterySettings) (apps : list Appliance)
    (ps : PowerSchedule) (h : Q) :
  Forall (fun p =>
    let active := filter (fun a => enabled a && isApplianceActive a (inject_Z (time p))) apps in
    charging p = isPowerAvailable (inject_Z (time p)) (periods ps) /\
    (charging p = true -> consumption p = 0) /\
    (charging p = false -> consumption p = sumPower active) /\
    point_appliances p = map nameUa active)
    (timelineData (calculateBatteryStatus b apps ps h)).
Proof.
  change (timelineData (calculateBatteryStatus b apps ps h))
    with (generateTimeline b apps (periods ps) h).
  eapply Forall_impl; [|apply timelineLoop_points].
  cbn zeta. intros p (H1 & H2 & H3).
  split; [exact H1|]. split; [|split; [|exact H3]]; intro Hc; rewrite H2, Hc; reflexivity.
Qed.

Lemma timelineLoop_times (b : BatterySettings) (apps : list Appliance)
    (ps : list TimeRange) (sh : Z) (i fuel : nat) (lvl : Q) :
  map time (timelineLoop b apps ps sh (Z.of_nat i) fuel lvl) =
  map (fun k => Z.rem (sh + Z.of_nat k) 24) (seq i fuel).
Proof.
  revert i lvl. induction fuel as [|fuel IH]; intros i lvl; [reflexivity|].
  cbn [timelineLoop map seq time]. f_equal.
  replace (Z.of_nat i + 1)%Z with (Z.of_nat (S i)) by lia. apply IH.
Qed.

Lemma timelineLoop_charging (b : BatterySettings) (apps : list Appliance)
    (ps : list TimeRange) (sh : Z) (i fuel : nat) (lvl : Q) :
  map charging (timelineLoop b apps ps sh (Z.of_nat i) fuel lvl) =
  map (fun k => isPowerAvailable (inject_Z (Z.rem (sh + Z.of_nat k) 24)) ps) (seq i fuel).
Proof.
  revert i lvl. induction fuel as [|fuel IH]; intros i lvl; [reflexivity|].
  cbn [timelineLoop map seq charging]. f_equal.
  replace (Z.of_nat i + 1)%Z with (Z.of_nat (S i)) by lia. apply IH.
Qed.

(** X2: the timeline's hours are [(floor(h) + i) % 24] for [i = 0..23]; for a
    non-negative reference hour they are the 24 hours of the day, each
    exactly once. *)
Theorem timeline_hours (b : BatterySettings) (apps : list Appliance)
    (ps : PowerSchedule) (h : Q) :
  map time (timelineData (calculateBatteryStatus b apps ps h)) =
  map (fun k => Z.rem (Qfloor h + Z.of_nat k) 24) (seq 0 24) /\
  (0 <= h -> Permutation (map time (timelineData (calculateBatteryStatus b apps ps h)))
                         dayHours).
Proof.
  assert (E : map time (timelineData (calculateBatteryStatus b apps ps h)) =
              map (fun k => Z.rem (Qfloor h + Z.of_nat k) 24) (seq 0 24)).
  { change (timelineData (calculateBatteryStatus b apps ps h))
      with (timelineLoop b apps (periods ps) (Qfloor h) (Z.of_nat 0) 24 (currentCharge b)).
    apply timelineLoop_times. }
  split; [exact E|]. intro Hh. rewrite E. apply scanned_hours_perm.
  change 0%Z with (Qfloor 0). apply Qfloor_resp_le. exact Hh.
Qed.

(** X3: the situation summary's [totalOutageHours] is the number of
    timeline points that are not charging, whatever the appliances. *)
Theorem totalOutageHours_matches_timeline (b : BatterySettings) (apps : list Appliance)
    (ps : PowerSchedule) (h : Q) :
  totalOutageHours (analyzeSituation b ps h) =
  List.length (filter (fun p => negb (charging p))
                      (timelineData (calculateBatteryStatus b apps ps h))).
Proof.
  change (totalOutageHours (analyzeSituation b ps h))
    with (fold_left (fun total i =>
            if negb (isPowerOn (inject_Z (Z.rem (Qfloor h + Z.of_nat i) 24)) (periods ps))
            then S total else total) (seq 0 24) 0%nat).
  rewrite (fold_count_filter
             (fun i => negb (isPowerOn (inject_Z (Z.rem (Qfloor h + Z.of_nat i) 24))
                                       (periods ps)))).
  rewrite Nat.add_0_l.
  rewrite (filter_length_map negb charging).
  change (timelineData (calculateBatteryStatus b apps ps h))
    with (timelineLoop b apps (periods ps) (Qfloor h) (Z.of_nat 0) 24 (currentCharge b)).
  rewrite timelineLoop_charging.
  rewrite <- (filter_length_map negb
               (fun k => isPowerAvailable (inject_Z (Z.rem (Qfloor h + Z.of_nat k) 24))
                                          (periods ps))).
  reflexivity.
Qed.

(** The level of each point compared with the level before it: up (or
    equal) on a charging hour, down (or equal) otherwise. *)
Fixpoint levelSteps (prev : Q) (l : list TimelinePoint) : Prop :=
  match l with
  | [] => True
  | p :: l' =>
    (charging p = true -> prev <= batteryLevel p) /\
    (charging p = false -> batteryLevel p <= prev) /\
    levelSteps (batteryLevel p) l'
  end.

Lemma levelSteps_consecutive (prev : Q) (l1 : list TimelinePoint) :
  forall p q l2, levelSteps prev (l1 ++ p :: q :: l2) ->
  (charging q = true -> batteryLevel p <= batteryLevel q) /\
  (charging q = false -> batteryLevel q <= batteryLevel p).
Proof.
  revert prev. induction l1 as [|x l1 IH]; intros prev p q l2 H.
  - cbn [app levelSteps] in H. destruct H as (_ & _ & H1 & H2 & _). split; assumption.
  - cbn [app levelSteps] in H. destruct H as (_ & _ & H). exact (IH _ _ _ _ H).
Qed.

Section Direction.

Variable b : BatterySettings.
Variable apps : list Appliance.
Variable ps : list TimeRange.
Hypothesis Hcap : 0 < capacity b.
Hypothesis Hcp : 0 <= chargingPower b.
Hypothesis Hpow : Forall (fun a => 0 <= power a) apps.

Lemma timelineLoop_levelSteps (sh i : Z) (fuel : nat) (lvl : Q) :
  minDischarge b <= lvl <= maxCharge b ->
  levelSteps (round1 lvl) (timelineLoop b apps ps sh i fuel lvl).
Proof.
  revert i lvl. induction fuel as [|fuel IH]; intros i lvl Hlvl; [exact I|].
  cbn [timelineLoop levelSteps batteryLevel charging].
  destruct (isPowerAvailable _ ps).
  - pose proof (rate_nonneg _ _ Hcp Hcap) as Hr.
    split; [intros _; apply round1_le; apply Q.min_glb; lra|].
    split; [discriminate|].
    apply IH. apply charge_step_bounds; assumption.
  - pose proof (rate_nonneg _ _ (active_power_nonneg apps Hpow
        (fun a => enabled a && isApplianceActive a (inject_Z (Z.rem (sh + i) 24)))) Hcap) as Hd.
    split; [discriminate|].
    split; [intros _; apply round1_le; apply Q.max_lub; lra|].
    apply IH. apply discharge_step_bounds; assumption.
Qed.

End Direction.

(** X4: for settings in the declared domain, the battery level never falls on
    a charging hour and never rises on a discharging hour: the first point
    compared with the starting charge (rounded to one decimal), and every
    later point compared with the point before it. *)
Theorem timeline_level_direction (b : BatterySettings) (apps : list Appliance)
    (ps : PowerSchedule) (h : Q)
    (Hcap : 0 < capacity b) (Hcp : 0 <= chargingPower b)
    (Hpow : Forall (fun a => 0 <= power a) apps)
    (Hcc : minDischarge b <= currentCharge b <= maxCharge b) :
  let tl := timelineData (calculateBatteryStatus b apps ps h) in
  (forall p l, tl = p :: l ->
     (charging p = true -> round1 (currentCharge b) <= batteryLevel p) /\
     (charging p = false -> batteryLevel p <= round1 (currentCharge b))) /\
  (forall l1 p q l2, tl = l1 ++ p :: q :: l2 ->
     (charging q = true -> batteryLevel p <= batteryLevel q) /\
     (charging q = false -> batteryLevel q <= batteryLevel p)).
Proof.
  intro tl.
  assert (H : levelSteps (round1 (currentCharge b)) tl).
  { unfold tl.
    change (timelineData (calculateBatteryStatus b apps ps h))
      with (generateTimeline b apps (periods ps) h).
    apply timelineLoop_levelSteps; assumption. }
  clearbody tl. split.
  - intros p l E. rewrite E in H. cbn [levelSteps] in H.
    destruct H as (H1 & H2 & _). split; assumption.
  - intros l1 p q l2 E. rewrite E in H. exact (levelSteps_consecutive _ _ _ _ _ H).
Qed.

Lemma timeline_level_direction_witness :
  (0 < capacity demoBattery /\ 0 <= chargingPower demoBattery /\
   Forall (fun a => 0 <= power a) demoAppliances /\
   minDischarge demoBattery <= currentCharge demoBattery <= maxCharge demoBattery) /\
  let tl := timelineData (calculateBatteryStatus demoBattery demoAppliances demoSchedule 10) in
  (forall p l, tl = p :: l ->
     (charging p = true -> round1 (currentCharge demoBattery) <= batteryLevel p) /\
     (charging p = false -> batteryLevel p <= round1 (currentCharge demoBattery))) /\
  (forall l1 p q l2, tl = l1 ++ p :: q :: l2 ->
     (charging q = true -> batteryLevel p <= batteryLevel q) /\
     (charging q = false -> batteryLevel q <= batteryLevel p)).
Proof.
  assert (Hpow : Forall (fun a => 0 <= power a) demoAppliances).
  { repeat constructor; simpl; discriminate. }
  assert (Hcc : minDischarge demoBattery <= currentCharge demoBattery <= maxCharge demoBattery).
  { split; simpl; discriminate. }
  split; [split; [reflexivity|split; [discriminate|split; assumption]]|].
  apply (timeline_level_direction demoBattery demoAppliances demoSchedule 10);
    [reflexivity|discriminate|exact Hpow|exact Hcc].
Defined.

(** ** Result fields of [calculateBatteryStatus] *)

Lemma calculateBatteryStatus_fields (b : BatterySettings) (apps : list Appliance)
    (ps : PowerSchedule) (h : Q) :
  let r := calculateBatteryStatus b apps ps h in
  usableEnergy r = capacity b * (maxCharge b - minDischarge b) / 100 /\
  currentAvailableEnergy r = capacity b * Qmax 0 (currentCharge b - minDischarge b) / 100 /\
  currentConsumption r =
    (if isPowerAvailable (inject_Z (Qfloor h)) (periods ps) then 0
     else sumPower (filter (fun a => isApplianceActive a h) (filter enabled apps))) /\
  hoursRemaining r =
    finiteOr999 (if Qltb 0 (currentConsumption r)
                 then Fin (Qmax 0 (currentAvailableEnergy r / currentConsumption r))
                 else PosInf) /\
  recommendations r =
    generateRecommendations b apps
      (if Qltb 0 (currentConsumption r)
       then Fin (Qmax 0 (currentAvailableEnergy r / currentConsumption r))
       else PosInf)
      (canSurviveOutage r) (periods ps) h.
Proof.
  cbv beta zeta iota delta [calculateBatteryStatus usableEnergy currentAvailableEnergy
    currentConsumption hoursRemaining recommendations canSurviveOutage].
  repeat split.
Qed.

(** X5: [hoursRemaining] is never negative; it is the sentinel 999 when the
    current consumption is not positive, and otherwise
    [max(0, currentAvailableEnergy / currentConsumption)]. When the grid is on
    at the whole hour [floor(currentHour)] the consumption is 0 and the
    result is 999. *)
Theorem hoursRemaining_cases (b : BatterySettings) (apps : list Appliance)
    (ps : PowerSchedule) (h : Q) :
  let r := calculateBatteryStatus b apps ps h in
  0 <= hoursRemaining r /\
  (currentConsumption r <= 0 -> hoursRemaining r = 999) /\
  (0 < currentConsumption r ->
     hoursRemaining r = Qmax 0 (currentAvailableEnergy r / currentConsumption r)) /\
  (isPowerAvailable (inject_Z (Qfloor h)) (periods ps) = true ->
     currentConsumption r = 0 /\ hoursRemaining r = 999).
Proof.
  intro r. destruct (calculateBatteryStatus_fields b apps ps h) as (_ & _ & Hc & Hh & _).
  fold r in Hc, Hh. rewrite Hh.
  split; [|split; [|split]].
  - destruct (Qltb 0 (currentConsumption r)); cbn [finiteOr999];
      [apply Q.le_max_l|discriminate].
  - intro Hle. assert (E : Qltb 0 (currentConsumption r) = false)
      by (apply Qltb_false_iff; exact Hle).
    rewrite E. reflexivity.
  - intro Hlt. assert (E : Qltb 0 (currentConsumption r) = true)
      by (apply Qltb_iff; exact Hlt).
    rewrite E. reflexivity.
  - intro Hon. rewrite Hon in Hc. rewrite Hc. split; reflexivity.
Qed.

(** X6: with a non-negative capacity, [currentAvailableEnergy] is never
    negative and is 0 when the charge is at or below [minDischarge]; if
    moreover [minDischarge <= maxCharge] and the charge does not exceed
    [maxCharge], it never exceeds [usableEnergy]. *)
Theorem available_energy_bounds (b : BatterySettings) (apps : list Appliance)
    (ps : PowerSchedule) (h : Q) (Hcap : 0 <= capacity b) :
  let r := calculateBatteryStatus b apps ps h in
  0 <= currentAvailableEnergy r /\
  (currentCharge b <= minDischarge b -> currentAvailableEnergy r == 0) /\
  (minDischarge b <= maxCharge b -> currentCharge b <= maxCharge b ->
     currentAvailableEnergy r <= usableEnergy r).
Proof.
  intro r. destruct (calculateBatteryStatus_fields b apps ps h) as (Hu & Ha & _).
  fold r in Hu, Ha. rewrite Hu, Ha.
  pose proof (Q.le_max_l 0 (currentCharge b - minDischarge b)) as H0.
  set (m := Qmax 0 (currentCharge b - minDischarge b)) in *.
  split; [|split].
  - unfold Qdiv. apply Qmult_le_0_compat; [|discriminate].
    apply Qmult_le_0_compat; assumption.
  - intro Hle. assert (Hm : m == 0).
    { unfold m. apply Q.max_l. lra. }
    rewrite Hm. unfold Qdiv. rewrite Qmult_0_r. reflexivity.
  - intros Hmm Hcc. assert (Hm : m <= maxCharge b - minDischarge b).
    { unfold m. apply Q.max_lub; lra. }
    unfold Qdiv. apply Qmult_le_compat_r; [|discriminate].
    rewrite !(Qmult_comm (capacity b)). apply Qmult_le_compat_r; assumption.
Qed.

Lemma available_energy_bounds_witness :
  0 <= capacity demoBattery /\
  let r := calculateBatteryStatus demoBattery demoAppliances demoSchedule 10 in
  0 <= currentAvailableEnergy r /\
  (currentCharge demoBattery <= minDischarge demoBattery -> currentAvailableEnergy r == 0) /\
  (minDischarge demoBattery <= maxCharge demoBattery ->
   currentCharge demoBattery <= maxCharge demoBattery ->
     currentAvailableEnergy r <= usableEnergy r).
Proof.
  split; [discriminate|].
  apply (available_energy_bounds demoBattery demoAppliances demoSchedule 10).
  discriminate.
Defined.

(** ** Recommendation rules *)

Ltac split_rules :=
  unfold generateRecommendations; cbn zeta;
  rewrite in_nonempty_or_optimal, !in_app_iff;
  repeat match goal with
         | |- context [if ?c then [_] else []] => destruct c
         end;
  simpl; intuition congruence.

Lemma rec_willDeplete_iff b apps hr cs pp h :
  In RecWillDeplete (generateRecommendations b apps hr cs pp h) <-> negb cs = true.
Proof. split_rules. Qed.

Lemma rec_lowCharge_iff b apps hr cs pp h :
  In RecLowCharge (generateRecommendations b apps hr cs pp h) <->
  Qltb (currentCharge b) 50 = true.
Proof. split_rules. Qed.

Lemma rec_under4_iff b apps hr cs pp h :
  In RecUnder4Hours (generateRecommendations b apps hr cs pp h) <->
  num_ltb hr (Fin 4) && num_ltb hr PosInf = true.
Proof. split_rules. Qed.

Lemma rec_disabling_iff b apps hr cs pp h names :
  In (RecConsiderDisabling names) (generateRecommendations b apps hr cs pp h) <->
  (0 <? List.length (filter (fun a => Qltb 1 (power a)) (filter enabled apps)))%nat &&
    Qltb (currentCharge b) 40 = true /\
  names = map nameUa (filter (fun a => Qltb 1 (power a)) (filter enabled apps)).
Proof. split_rules. Qed.

Lemma rec_optimal_iff b apps hr cs pp h :
  In RecOptimal (generateRecommendations b apps hr cs pp h) <->
  generateRecommendations b apps hr cs pp h = [RecOptimal].
Proof.
  unfold generateRecommendations; cbn zeta.
  repeat match goal with
         | |- context [if ?c then [_] else []] => destruct c
         end;
  simpl; intuition congruence.
Qed.

Lemma rec_nonempty b apps hr cs pp h :
  generateRecommendations b apps hr cs pp h <> [].
Proof.
  unfold generateRecommendations; cbn zeta.
  match goal with |- match ?l with _ => _ end <> [] => destruct l end; discriminate.
Qed.

Lemma under4_num_iff (hr : num) :
  num_ltb hr (Fin 4) && num_ltb hr PosInf = true <-> exists x, hr = Fin x /\ x < 4.
Proof.
  destruct hr as [x|]; cbn [num_ltb].
  - rewrite andb_true_r, Qltb_iff. split.
    + intro H. exists x. split; [reflexivity|exact H].
    + intros (y & E & H). injection E as ->. exact H.
  - split; [discriminate|]. intros (y & E & _). discriminate E.
Qed.

(** X7: [generateRecommendations] never returns an empty list; the
    "optimal" message appears exactly when it is the only message; the
    depletion warning appears exactly when [canSurvive] is false, the
    low-charge warning exactly when the charge is below 50%, the under-4-hours
    warning exactly when [hoursRemaining] is finite and below 4, and the
    "consider disabling" message exactly when the charge is below 40% and
    some enabled appliance draws more than 1 kW, listing the names of all
    such appliances. *)
Theorem generateRecommendations_rules (b : BatterySettings) (apps : list Appliance)
    (hr : num) (cs : bool) (pp : list TimeRange) (h : Q) :
  let R := generateRecommendations b apps hr cs pp h in
  let high := filter (fun a => Qltb 1 (power a)) (filter enabled apps) in
  R <> [] /\
  (In RecOptimal R <-> R = [RecOptimal]) /\
  (In RecWillDeplete R <-> cs = false) /\
  (In RecLowCharge R <-> currentCharge b < 50) /\
  (In RecUnder4Hours R <-> exists x, hr = Fin x /\ x < 4) /\
  (forall names, In (RecConsiderDisabling names) R <->
     currentCharge b < 40 /\ high <> [] /\ names = map nameUa high).
Proof.
  intros R high. unfold R.
  split; [apply rec_nonempty|]. split; [apply rec_optimal_iff|].
  split; [rewrite rec_willDeplete_iff, negb_true_iff; reflexivity|].
  split; [rewrite rec_lowCharge_iff, Qltb_iff; reflexivity|].
  split; [rewrite rec_under4_iff, under4_num_iff; reflexivity|].
  intro names. rewrite rec_disabling_iff, andb_true_iff, Nat.ltb_lt, Qltb_iff.
  fold high. destruct high as [|a l]; cbn [List.length]; split.
  - intros ((H & _) & _). lia.
  - intros (_ & H & _). congruence.
  - intros ((_ & H) & E). split; [exact H|split; [discriminate|exact E]].
  - intros (H & _ & E). split; [split; [lia|exact H]|exact E].
Qed.

(** X8: when the grid is on at [currentHour], [calculateBatteryStatus] never
    asks to shed load, and when it is on at the whole hour [floor(currentHour)]
    it never gives the under-4-hours warning. *)
Theorem calculateBatteryStatus_no_warning_on_grid (b : BatterySettings)
    (apps : list Appliance) (ps : PowerSchedule) (h : Q) :
  let r := calculateBatteryStatus b apps ps h in
  (isPowerAvailable h (periods ps) = true -> ~ In RecMustShedLoad (recommendations r)) /\
  (isPowerAvailable (inject_Z (Qfloor h)) (periods ps) = true ->
     ~ In RecUnder4Hours (recommendations r)).
Proof.
  intro r. destruct (calculateBatteryStatus_fields b apps ps h) as (_ & _ & Hc & _ & Hr).
  fold r in Hc, Hr. rewrite Hr. split.
  - intros Hon Hin. apply shed_load_emitted_iff in Hin.
    unfold hoursUntilPowerOn in Hin. rewrite Hon in Hin.
    apply andb_true_iff in Hin. destruct Hin as [Hin _].
    destruct (Qltb 0 (currentConsumption r)); [|discriminate].
    cbn [num_ltb] in Hin. apply Qltb_iff in Hin.
    pose proof (Q.le_max_l 0 (currentAvailableEnergy r / currentConsumption r)). lra.
  - intros Hon Hin. rewrite Hon in Hc. rewrite Hc in Hin.
    apply rec_under4_iff in Hin. discriminate Hin.
Qed.

(** ** The simulation behind each scenario *)

Lemma min_fold_spec (l : list TimelinePoint) :
  l <> [] ->
  exists l1 p l2, l = l1 ++ p :: l2 /\
    Forall (fun q => batteryLevel p < batteryLevel q) l1 /\
    Forall (fun q => batteryLevel p <= batteryLevel q) l2 /\
    fold_left (fun acc p =>
      let '(minLevel, minTime) := acc in
      if num_ltb (Fin (batteryLevel p)) minLevel
      then (Fin (batteryLevel p), time p) else (minLevel, minTime))
      l (PosInf, 0%Z) = (Fin (batteryLevel p), time p).
Proof.
  induction l as [|x l IH] using rev_ind; [congruence|]. intros _.
  rewrite fold_left_app. cbn [fold_left].
  destruct l as [|y l'].
  - exists [], x, []. split; [reflexivity|]. split; [constructor|]. split; [constructor|].
    reflexivity.
  - destruct IH as (l1 & p & l2 & E & H1 & H2 & Hf); [discriminate|].
    rewrite Hf. cbv beta iota. cbn [num_ltb].
    destruct (Qltb (batteryLevel x) (batteryLevel p)) eqn:Hx.
    + apply Qltb_iff in Hx.
      exists (l1 ++ p :: l2), x, []. split; [rewrite E; reflexivity|].
      split; [|split; [constructor|reflexivity]].
      apply Forall_app. split.
      * eapply Forall_impl; [|exact H1]. intros q Hq. cbv beta in *. lra.
      * constructor; [exact Hx|]. eapply Forall_impl; [|exact H2]. intros q Hq. cbv beta in *. lra.
    + apply Qltb_false_iff in Hx.
      exists l1, p, (l2 ++ [x]). split; [rewrite E, <- app_assoc; reflexivity|].
      split; [exact H1|]. split; [|reflexivity].
      apply Forall_app. split; [exact H2|]. constructor; [exact Hx|constructor].
Qed.

(** X9: [simulate] reports as its minimum the level of the first timeline
    point with the lowest level (rounded to one decimal), together with that
    point's hour, and it is feasible exactly when that lowest level is above
    [minDischarge]. *)
Theorem simulate_minimum (b : BatterySettings) (apps : list Appliance)
    (ps : PowerSchedule) (h : Q) :
  let tl := timelineData (calculateBatteryStatus b apps ps h) in
  let sim := simulate b apps ps h in
  exists l1 p l2, tl = l1 ++ p :: l2 /\
    Forall (fun q => batteryLevel p < batteryLevel q) l1 /\
    Forall (fun q => batteryLevel p <= batteryLevel q) l2 /\
    sim_minLevel sim = Fin (round1 (batteryLevel p)) /\
    sim_minTime sim = time p /\
    (sim_feasible sim = true <-> minDischarge b < batteryLevel p).
Proof.
  change (timelineData (calculateBatteryStatus b apps ps h))
    with (generateTimeline b apps (periods ps) h).
  intros tl sim.
  assert (Hne : tl <> []).
  { pose proof (generateTimeline_length b apps ps h) as L. fold tl in L.
    intro E. rewrite E in L. discriminate L. }
  destruct (min_fold_spec tl Hne) as (l1 & p & l2 & E & H1 & H2 & Hf).
  exists l1, p, l2. split; [exact E|]. split; [exact H1|]. split; [exact H2|].
  unfold sim, simulate. cbv zeta.
  change (timelineData (calculateBatteryStatus b apps ps h))
    with (generateTimeline b apps (periods ps) h).
  fold tl. rewrite Hf.
  cbn [sim_minLevel sim_minTime sim_feasible num_round1].
  split; [reflexivity|]. split; [reflexivity|].
  change (canSurviveOutage (calculateBatteryStatus b apps ps h))
    with (checkSurvival (generateTimeline b apps (periods ps) h) (minDischarge b)).
  fold tl.
  unfold checkSurvival. rewrite forallb_forall. split.
  - intro H. apply Qltb_iff. apply H. rewrite E. apply in_elt.
  - intros Hp q Hq. apply Qltb_iff. rewrite E in Hq.
    apply in_app_iff in Hq. destruct Hq as [Hq|[<-|Hq]].
    + rewrite Forall_forall in H1. specialize (H1 q Hq). lra.
    + exact Hp.
    + rewrite Forall_forall in H2. specialize (H2 q Hq). lra.
Qed.

(** ** Overrides *)

(** X10: [applyOverrides] keeps every appliance in place with its id, names,
    icon, power and color; an appliance without an override is returned
    unchanged, and one whose override leaves out [enabled] or [schedule]
    keeps its own value of that field. *)
Theorem applyOverrides_preserves (base : list Appliance) (ov : Overrides) :
  Forall2 (fun a a' =>
    id a' = id a /\ name a' = name a /\ nameUa a' = nameUa a /\ icon a' = icon a /\
    power a' = power a /\ color a' = color a /\
    (lookupOverride (id a) ov = None -> a' = a) /\
    (forall o, lookupOverride (id a) ov = Some o ->
       (ov_enabled o = None -> enabled a' = enabled a) /\
       (ov_schedule o = None -> schedule a' = schedule a)))
    base (applyOverrides base ov).
Proof.
  induction base as [|a base IH]; [constructor|].
  cbn [applyOverrides map]. constructor; [|exact IH].
  destruct (lookupOverride (id a) ov) as [o|] eqn:E.
  - cbn [id name nameUa icon power color enabled schedule].
    split; [reflexivity|]. split; [reflexivity|]. split; [reflexivity|].
    split; [reflexivity|]. split; [reflexivity|]. split; [reflexivity|].
    split; [intro Hn; discriminate Hn|].
    intros o' E'. injection E' as <-.
    split; intro Hn; rewrite Hn; reflexivity.
  - split; [reflexivity|]. split; [reflexivity|]. split; [reflexivity|].
    split; [reflexivity|]. split; [reflexivity|]. split; [reflexivity|].
    split; [reflexivity|]. intros o' E'. discriminate E'.
Qed.

(** ** Scenario ids *)

Inductive Sublist {A : Type} : list A -> list A -> Prop :=
| sl_nil : Sublist [] []
| sl_skip x l m : Sublist l m -> Sublist l (x :: m)
| sl_keep x l m : Sublist l m -> Sublist (x :: l) (x :: m).

Lemma Sublist_app {A} (l1 l2 m1 m2 : list A) :
  Sublist l1 m1 -> Sublist l2 m2 -> Sublist (l1 ++ l2) (m1 ++ m2).
Proof.
  intros H1 H2. induction H1; cbn [app].
  - exact H2.
  - apply sl_skip. exact IHSublist.
  - apply sl_keep. exact IHSublist.
Qed.

Lemma Sublist_In {A} (l m : list A) (x : A) : Sublist l m -> In x l -> In x m.
Proof.
  intro H. induction H; cbn [In]; intuition.
Qed.

Lemma Sublist_NoDup {A} (l m : list A) : Sublist l m -> NoDup m -> NoDup l.
Proof.
  intro H. induction H; intro Hm.
  - exact Hm.
  - inversion Hm; subst. auto.
  - inversion Hm; subst. constructor; [|auto].
    intro Hx. apply H2. eapply Sublist_In; eassumption.
Qed.

Definition candidateId (c : string * Tag * Overrides) : string := fst (fst c).

Lemma candidates_ids_sublist (b : BatterySettings) (s : SituationSummary) (sh : Z) :
  Sublist (map candidateId (candidates b s sh))
    (["critical"; "heating-only"] ++ ["basic-needs"] ++ ["water-night-off"] ++
     ["workday"] ++ ["long-outage"] ++ ["balanced"] ++ ["extended-elevator"] ++
     ["morning-rush"] ++ ["night-light"] ++ ["evening-comfort"] ++ ["max-comfort"] ++
     ["full-power"] ++ ["short-outage"]).
Proof.
  unfold candidates. cbv zeta. rewrite !map_app.
  repeat (apply Sublist_app; [|]);
  repeat match goal with
         | |- context [if ?c then _ else _] => destruct c
         end;
  cbn [map candidateId fst];
  repeat (first [apply sl_nil | apply sl_keep | apply sl_skip]).
Qed.

Lemma generateScenarios_ids (b : BatterySettings) (apps : list Appliance)
    (ps : PowerSchedule) (h : Q) :
  Permutation (map sc_id (generateScenarios b apps ps h))
              (map candidateId (candidates b (analyzeSituation b ps h) (Qfloor h))).
Proof.
  unfold generateScenarios. rewrite (Permutation_map sc_id (sortBy_perm _ _ _)).
  unfold pushedScenarios. rewrite map_map.
  apply Permutation_refl'. apply map_ext. intros [[cid ctag] ov]. reflexivity.
Qed.

(** X11: the scenarios [generateScenarios] returns have pairwise distinct
    ids (so the ids can serve as React keys). *)
Theorem generateScenarios_ids_distinct (b : BatterySettings) (apps : list Appliance)
    (ps : PowerSchedule) (h : Q) :
  NoDup (map sc_id (generateScenarios b apps ps h)).
Proof.
  eapply Permutation_NoDup; [symmetry; apply generateScenarios_ids|].
  eapply Sublist_NoDup; [apply candidates_ids_sublist|].
  cbn [app].
  repeat (constructor; [cbn [In]; intuition discriminate|]). constructor.
Qed.

(** X12: every scenario [generateScenarios] returns carries exactly the
    feasibility, minimum level, minimum time and energy that [simulate]
    gives for its own appliance list. *)
Theorem generateScenarios_simulated (b : BatterySettings) (apps : list Appliance)
    (ps : PowerSchedule) (h : Q) (s : Scenario)
    (Hs : In s (generateScenarios b apps ps h)) :
  let sim := simulate b (sc_appliances s) ps h in
  feasible s = sim_feasible sim /\ minBatteryLevel s = sim_minLevel sim /\
  minBatteryTime s = sim_minTime sim /\ energyUsedKwh s = sim_energyUsed sim.
Proof.
  unfold generateScenarios in Hs.
  apply (Permutation_in _ (sortBy_perm _ _ _)) in Hs.
  unfold pushedScenarios in Hs. apply in_map_iff in Hs.
  destruct Hs as ([[cid ctag] ov] & <- & _).
  repeat split.
Qed.

Lemma generateScenarios_simulated_witness :
  let out := generateScenarios demoBattery demoAppliances demoSchedule 10 in
  let s := hd (mkScenario "" Emergency [] false PosInf 0 0) out in
  In s out /\
  let sim := simulate demoBattery (sc_appliances s) demoSchedule 10 in
  feasible s = sim_feasible sim /\ minBatteryLevel s = sim_minLevel sim /\
  minBatteryTime s = sim_minTime sim /\ energyUsedKwh s = sim_energyUsed sim.
Proof.
  cbn zeta.
  assert (Hs : In (hd (mkScenario "" Emergency [] false PosInf 0 0)
                      (generateScenarios demoBattery demoAppliances demoSchedule 10))
                  (generateScenarios demoBattery demoAppliances demoSchedule 10)).
  { apply In_hd. vm_compute. discriminate. }
  split; [exact Hs|].
  exact (generateScenarios_simulated demoBattery demoAppliances demoSchedule 10 _ Hs).
Defined.

(** ** The situation summary *)

(** X13: when the grid is on at [floor(referenceHour)], [hoursToNextOutage]
    is the first [i] in [1..24] with the grid off at
    [(floor(referenceHour) + i) % 24]; when there is no such hour it is 0,
    the same value as when the grid is off now. *)
Theorem hoursToNextOutage_when_on (b : BatterySettings) (ps : PowerSchedule) (h : Q) :
  let s := analyzeSituation b ps h in
  let on (i : nat) := isPowerOn (inject_Z (Z.rem (Qfloor h + Z.of_nat i) 24)) (periods ps) in
  isPowerOnNow s = true ->
  (exists i, (1 <= i <= 24)%nat /\ on i = false /\
             (forall j, (1 <= j < i)%nat -> on j = true) /\
             hoursToNextOutage s = i) \/
  ((forall i, (1 <= i <= 24)%nat -> on i = true) /\ hoursToNextOutage s = 0%nat).
Proof.
  cbn zeta. unfold analyzeSituation. cbn zeta.
  cbn [isPowerOnNow hoursToNextOutage].
  intro Hon. rewrite Hon.
  destruct (scanFirst (fun i => negb (isPowerOn (inject_Z (Z.rem (Qfloor h + i) 24))
                                                (periods ps))) 1 24) as [k|] eqn:E.
  - destruct (scanFirst_some _ _ _ _ E) as (Hk & Hfk & Hbefore).
    left. exists k. split; [lia|]. split; [apply negb_true_iff; exact Hfk|].
    split; [|reflexivity].
    intros j Hj. apply negb_false_iff. apply Hbefore. exact Hj.
  - right. split; [|reflexivity].
    intros i Hi. apply negb_false_iff. apply (scanFirst_none _ _ _ E). lia.
Qed.

Lemma hoursToNextOutage_when_on_witness :
  isPowerOnNow (analyzeSituation demoBattery demoSchedule 10) = true /\
  let s := analyzeSituation demoBattery demoSchedule 10 in
  let on (i : nat) := isPowerOn (inject_Z (Z.rem (Qfloor 10 + Z.of_nat i) 24))
                                (periods demoSchedule) in
  (exists i, (1 <= i <= 24)%nat /\ on i = false /\
             (forall j, (1 <= j < i)%nat -> on j = true) /\
             hoursToNextOutage s = i) \/
  ((forall i, (1 <= i <= 24)%nat -> on i = true) /\ hoursToNextOutage s = 0%nat).
Proof.
  assert (Hon : isPowerOnNow (analyzeSituation demoBattery demoSchedule 10) = true)
    by (vm_compute; reflexivity).
  split; [exact Hon|].
  exact (hoursToNextOutage_when_on demoBattery demoSchedule 10 Hon).
Defined.

(** X14: the summary's [batteryPercent] is the current charge and its
    [availableEnergyKwh] is [calculateBatteryStatus]'s
    [currentAvailableEnergy] rounded to one decimal; with a non-negative
    capacity it is never negative. *)
Theorem situation_energy_matches_status (b : BatterySettings) (apps : list Appliance)
    (ps : PowerSchedule) (h : Q) :
  let s := analyzeSituation b ps h in
  batteryPercent s = currentCharge b /\
  availableEnergyKwh s = round1 (currentAvailableEnergy (calculateBatteryStatus b apps ps h)) /\
  (0 <= capacity b -> 0 <= availableEnergyKwh s).
Proof.
  assert (E : availableEnergyKwh (analyzeSituation b ps h) =
              round1 (currentAvailableEnergy (calculateBatteryStatus b apps ps h))).
  { reflexivity. }
  cbn zeta. split; [reflexivity|]. split; [exact E|].
  intro Hcap. rewrite E.
  destruct (calculateBatteryStatus_fields b apps ps h) as (_ & Ha & _). rewrite Ha.
  apply Qle_trans with (round1 0); [vm_compute; intro H; discriminate H|].
  apply round1_le.
  unfold Qdiv. apply Qmult_le_0_compat; [|discriminate].
  apply Qmult_le_0_compat; [exact Hcap|apply Q.le_max_l].
Qed.

(** ** The power schedule built from Yasno slots *)

Import App.

(** What one slot adds to the periods, in the first loop (today's slots)
    and in the second loop (tomorrow's slots) of [buildScheduleFromYasno]. *)
Definition todayRange (startHour : Q) (slot : YasnoSlot) : list TimeRange :=
  if negb (isNotPlanned (slot_type slot)) then []
  else
    let cs := Qmax (slot_start slot / 60) startHour in
    let ce := Qmin (slot_end slot / 60) 24 in
    if Qltb cs ce then [mkRange cs ce] else [].

Definition tomorrowRange (startHour : Q) (slot : YasnoSlot) : list TimeRange :=
  if negb (isNotPlanned (slot_type slot)) then []
  else
    let cs := Qmax (slot_start slot / 60) 0 in
    let ce := Qmin (slot_end slot / 60) startHour in
    if Qltb cs ce then [mkRange cs ce] else [].

Lemma fold_push {A B} (F : list B -> A -> list B) (g : A -> list B) :
  (forall acc x, F acc x = acc ++ g x) ->
  forall l acc, fold_left F l acc = acc ++ flat_map g l.
Proof.
  intros HF l. induction l as [|x l IH]; intro acc; cbn [fold_left flat_map].
  - symmetry. apply app_nil_r.
  - rewrite IH, HF. symmetry. apply app_assoc.
Qed.

Lemma buildScheduleFromYasno_periods (today tomorrow : list YasnoSlot) (sh : Q) :
  periods (buildScheduleFromYasno today tomorrow sh) =
  flat_map (todayRange sh) today ++ flat_map (tomorrowRange sh) tomorrow.
Proof.
  unfold buildScheduleFromYasno. cbv zeta. cbn [periods].
  erewrite (fold_push _ (tomorrowRange sh)).
  - erewrite (fold_push _ (todayRange sh)); [reflexivity|].
    intros acc x. unfold todayRange. cbv zeta.
    destruct (negb _); [symmetry; apply app_nil_r|].
    destruct (Qltb _ _); [reflexivity|symmetry; apply app_nil_r].
  - intros acc x. unfold tomorrowRange. cbv zeta.
    destruct (negb _); [symmetry; apply app_nil_r|].
    destruct (Qltb _ _); [reflexivity|symmetry; apply app_nil_r].
Qed.

Lemma isNotPlanned_iff (t : SlotType) : negb (isNotPlanned t) = false <-> t = NotPlanned.
Proof. destruct t; simpl; split; congruence. Qed.

Lemma in_todayRange (sh : Q) (slot : YasnoSlot) (r : TimeRange) :
  In r (todayRange sh slot) <->
  slot_type slot = NotPlanned /\
  r = mkRange (Qmax (slot_start slot / 60) sh) (Qmin (slot_end slot / 60) 24) /\
  Qmax (slot_start slot / 60) sh < Qmin (slot_end slot / 60) 24.
Proof.
  unfold todayRange. cbv zeta.
  destruct (negb (isNotPlanned (slot_type slot))) eqn:E.
  - cbn [In]. split; [intros []|]. intros (Ht & _). rewrite Ht in E. discriminate E.
  - apply isNotPlanned_iff in E.
    destruct (Qltb _ _) eqn:L.
    + apply Qltb_iff in L. cbn [In]. split.
      * intros [<-|[]]. auto.
      * intros (_ & -> & _). left. reflexivity.
    + apply Qltb_false_iff in L. cbn [In]. split; [intros []|].
      intros (_ & _ & L'). exfalso. lra.
Qed.

Lemma in_tomorrowRange (sh : Q) (slot : YasnoSlot) (r : TimeRange) :
  In r (tomorrowRange sh slot) <->
  slot_type slot = NotPlanned /\
  r = mkRange (Qmax (slot_start slot / 60) 0) (Qmin (slot_end slot / 60) sh) /\
  Qmax (slot_start slot / 60) 0 < Qmin (slot_end slot / 60) sh.
Proof.
  unfold tomorrowRange. cbv zeta.
  destruct (negb (isNotPlanned (slot_type slot))) eqn:E.
  - cbn [In]. split; [intros []|]. intros (Ht & _). rewrite Ht in E. discriminate E.
  - apply isNotPlanned_iff in E.
    destruct (Qltb _ _) eqn:L.
    + apply Qltb_iff in L. cbn [In]. split.
      * intros [<-|[]]. auto.
      * intros (_ & -> & _). left. reflexivity.
    + apply Qltb_false_iff in L. cbn [In]. split; [intros []|].
      intros (_ & _ & L'). exfalso. lra.
Qed.

(** X15: with the schedule built from Yasno's slots, the grid counts as on
    at hour [h] exactly when either [startHour <= h < 24] and some
    "NotPlanned" slot of today covers [h], or [0 <= h < startHour] and some
    "NotPlanned" slot of tomorrow covers [h] (a slot covers [h] when
    [start/60 <= h < end/60]); "Definite" slots never make the grid on. *)
Theorem buildScheduleFromYasno_available (today tomorrow : list YasnoSlot) (sh h : Q) :
  isPowerAvailable h (periods (buildScheduleFromYasno today tomorrow sh)) = true <->
  (sh <= h /\ h < 24 /\
   exists slot, In slot today /\ slot_type slot = NotPlanned /\
                slot_start slot / 60 <= h /\ h < slot_end slot / 60) \/
  (0 <= h /\ h < sh /\
   exists slot, In slot tomorrow /\ slot_type slot = NotPlanned /\
                slot_start slot / 60 <= h /\ h < slot_end slot / 60).
Proof.
  rewrite isPowerAvailable_iff, buildScheduleFromYasno_periods. split.
  - intros (r & Hr & Hh). apply in_app_iff in Hr. destruct Hr as [Hr|Hr].
    + apply in_flat_map in Hr. destruct Hr as (slot & Hs & Hr).
      apply in_todayRange in Hr. destruct Hr as (Ht & -> & Hlt).
      cbn [start end_] in Hh. destruct Hh as [(_ & H1 & H2)|(H & _)]; [|exfalso; lra].
      apply Q.max_lub_iff in H1. apply Q.min_glb_lt_iff in H2.
      left. split; [apply H1|]. split; [apply H2|].
      exists slot. split; [exact Hs|]. split; [exact Ht|]. split; [apply H1|apply H2].
    + apply in_flat_map in Hr. destruct Hr as (slot & Hs & Hr).
      apply in_tomorrowRange in Hr. destruct Hr as (Ht & -> & Hlt).
      cbn [start end_] in Hh. destruct Hh as [(_ & H1 & H2)|(H & _)]; [|exfalso; lra].
      apply Q.max_lub_iff in H1. apply Q.min_glb_lt_iff in H2.
      right. split; [apply H1|]. split; [apply H2|].
      exists slot. split; [exact Hs|]. split; [exact Ht|]. split; [apply H1|apply H2].
  - intros [(H1 & H2 & slot & Hs & Ht & H3 & H4)|(H1 & H2 & slot & Hs & Ht & H3 & H4)].
    + assert (Lo : Qmax (slot_start slot / 60) sh <= h) by (apply Q.max_lub; assumption).
      assert (Hi : h < Qmin (slot_end slot / 60) 24) by (apply Q.min_glb_lt; assumption).
      exists (mkRange (Qmax (slot_start slot / 60) sh) (Qmin (slot_end slot / 60) 24)).
      split.
      * apply in_app_iff. left. apply in_flat_map. exists slot. split; [exact Hs|].
        apply in_todayRange. split; [exact Ht|]. split; [reflexivity|lra].
      * left. cbn [start end_]. split; [lra|]. split; assumption.
    + assert (Lo : Qmax (slot_start slot / 60) 0 <= h) by (apply Q.max_lub; assumption).
      assert (Hi : h < Qmin (slot_end slot / 60) sh) by (apply Q.min_glb_lt; assumption).
      exists (mkRange (Qmax (slot_start slot / 60) 0) (Qmin (slot_end slot / 60) sh)).
      split.
      * apply in_app_iff. right. apply in_flat_map. exists slot. split; [exact Hs|].
        apply in_tomorrowRange. split; [exact Ht|]. split; [reflexivity|lra].
      * left. cbn [start end_]. split; [lra|]. split; assumption.
Qed.

(** X16: every period [buildScheduleFromYasno] produces is non-empty and
    same-day ([start < end]); for a start hour in [[0, 24]] each period lies
    within [[0, 24]]: today's periods start at or after the start hour and
    tomorrow's periods end at or before it. *)
Theorem buildScheduleFromYasno_well_formed (today tomorrow : list YasnoSlot) (sh : Q) :
  let ps := periods (buildScheduleFromYasno today tomorrow sh) in
  (forall r, In r ps -> start r < end_ r) /\
  (forall r, In r (flat_map (todayRange sh) today) -> sh <= start r /\ end_ r <= 24) /\
  (forall r, In r (flat_map (tomorrowRange sh) tomorrow) -> 0 <= start r /\ end_ r <= sh) /\
  (0 <= sh <= 24 -> forall r, In r ps -> 0 <= start r /\ end_ r <= 24).
Proof.
  cbn zeta. rewrite buildScheduleFromYasno_periods.
  assert (HT : forall r, In r (flat_map (todayRange sh) today) ->
                 start r < end_ r /\ sh <= start r /\ end_ r <= 24).
  { intros r Hr. apply in_flat_map in Hr. destruct Hr as (slot & _ & Hr).
    apply in_todayRange in Hr. destruct Hr as (_ & -> & Hlt). cbn [start end_].
    split; [exact Hlt|]. split; [apply Q.le_max_r|apply Q.le_min_r]. }
  assert (HM : forall r, In r (flat_map (tomorrowRange sh) tomorrow) ->
                 start r < end_ r /\ 0 <= start r /\ end_ r <= sh).
  { intros r Hr. apply in_flat_map in Hr. destruct Hr as (slot & _ & Hr).
    apply in_tomorrowRange in Hr. destruct Hr as (_ & -> & Hlt). cbn [start end_].
    split; [exact Hlt|]. split; [apply Q.le_max_r|apply Q.le_min_r]. }
  split; [|split; [|split]].
  - intros r Hr. apply in_app_iff in Hr. destruct Hr as [Hr|Hr];
      [apply (HT r Hr)|apply (HM r Hr)].
  - intros r Hr. apply (HT r Hr).
  - intros r Hr. apply (HM r Hr).
  - intros Hsh r Hr. apply in_app_iff in Hr. destruct Hr as [Hr|Hr].
    + destruct (HT r Hr) as (_ & H1 & H2). split; lra.
    + destruct (HM r Hr) as (_ & H1 & H2). split; lra.
Qed.

(** ** Formatting hours *)

(** Reads back the hours and minutes shown by a [formatHours] string. *)
Definition shownHoursMinutes (f : Formatted) : option (Z * Z) :=
  match f with
  | FInfinity => None
  | FMinutes m => Some (0%Z, m)
  | FHours h => Some (h, 0%Z)
  | FHoursMinutes h m => Some (h, m)
  end.

(** X17: [formatHours] shows "∞" for [Infinity] and for values above 100; for
    a value [x] in [[0, 100]] it shows [floor(x)] hours and a number of
    minutes between 0 and 60, and the time shown is within half a minute of
    [x]; 60 minutes does occur: 1.995 hours is shown as 1 h 60 min. *)
Theorem formatHours_accuracy (x : Q) :
  formatHours PosInf = FInfinity /\
  (100 < x -> formatHours (Fin x) = FInfinity) /\
  (0 <= x <= 100 ->
   exists hh mm, shownHoursMinutes (formatHours (Fin x)) = Some (hh, mm) /\
     hh = Qfloor x /\ (0 <= mm <= 60)%Z /\
     - (1 # 120) <= inject_Z hh + inject_Z mm / 60 - x <= 1 # 120) /\
  formatHours (Fin (399 # 200)) = FHoursMinutes 1 60.
Proof.
  split; [reflexivity|]. split; [|split; [|vm_compute; reflexivity]].
  - intro H. unfold formatHours. apply Qltb_iff in H. rewrite H. reflexivity.
  - intros [H0 H100]. unfold formatHours.
    assert (E : Qltb 100 x = false) by (apply Qltb_false_iff; exact H100).
    rewrite E. cbv zeta.
    set (hh := Qfloor x).
    set (y := (x - inject_Z hh) * 60 + (1 # 2)).
    set (mm := Qfloor y).
    pose proof (Qfloor_le x) as F1. pose proof (Qlt_floor x) as F2.
    fold hh in F1, F2.
    rewrite inject_Z_plus in F2. change (inject_Z 1) with 1 in F2.
    pose proof (Qfloor_le y) as G1. pose proof (Qlt_floor y) as G2.
    fold mm in G1, G2.
    rewrite inject_Z_plus in G2. change (inject_Z 1) with 1 in G2.
    assert (Hy : y == (x - inject_Z hh) * 60 + (1 # 2)) by reflexivity.
    assert (M0 : (0 <= mm)%Z).
    { change 0%Z with (Qfloor (1 # 2)). apply Qfloor_resp_le. unfold y. lra. }
    assert (M60 : (mm <= 60)%Z).
    { change 60%Z with (Qfloor (121 # 2)). apply Qfloor_resp_le. unfold y. lra. }
    assert (Err : - (1 # 120) <= inject_Z hh + inject_Z mm / 60 - x <= 1 # 120).
    { unfold Qdiv. change (/ 60) with (1 # 60). split; lra. }
    exists hh, mm.
    destruct (hh =? 0)%Z eqn:Eh; [|destruct (mm =? 0)%Z eqn:Em].
    + apply Z.eqb_eq in Eh. cbn [shownHoursMinutes].
      split; [rewrite Eh; reflexivity|]. split; [reflexivity|]. split; [lia|exact Err].
    + apply Z.eqb_eq in Em. cbn [shownHoursMinutes].
      split; [rewrite Em; reflexivity|]. split; [reflexivity|]. split; [lia|exact Err].
    + cbn [shownHoursMinutes].
      split; [reflexivity|]. split; [reflexivity|]. split; [lia|exact Err].
Qed.

(** ** Scenarios always offered *)

Lemma candidates_ids_split (b : BatterySettings) (s : SituationSummary) (sh : Z) :
  exists rest,
    map candidateId (candidates b s sh) =
      (if Qltb (currentCharge b) 20 && (0 <? totalOutageHours s)%nat
       then ["critical"] else ["heating-only"]) ++ rest /\
    Sublist rest (["basic-needs"] ++ ["water-night-off"] ++
     ["workday"] ++ ["long-outage"] ++ ["balanced"] ++ ["extended-elevator"] ++
     ["morning-rush"] ++ ["night-light"] ++ ["evening-comfort"] ++ ["max-comfort"] ++
     ["full-power"] ++ ["short-outage"]) /\
    In "basic-needs" rest /\ In "balanced" rest /\ In "max-comfort" rest.
Proof.
  unfold candidates. cbv zeta. rewrite map_app.
  eexists. split.
  { f_equal. destruct (_ && _); reflexivity. }
  rewrite !map_app.
  split; [|split; [|split]].
  - repeat (apply Sublist_app; [|]);
    repeat match goal with
           | |- context [if ?c then _ else _] => destruct c
           end;
    cbn [map candidateId fst];
    repeat (first [apply sl_nil | apply sl_keep | apply sl_skip]).
  - apply in_or_app. left. left. reflexivity.
  - do 4 (apply in_or_app; right). apply in_or_app. left. left. reflexivity.
  - do 9 (apply in_or_app; right). apply in_or_app. left. left. reflexivity.
Qed.

Lemma candidates_core_ids (b : BatterySettings) (s : SituationSummary) (sh : Z) :
  let ids := map candidateId (candidates b s sh) in
  let crit := Qltb (currentCharge b) 20 && (0 <? totalOutageHours s)%nat in
  In "basic-needs" ids /\ In "balanced" ids /\ In "max-comfort" ids /\
  (In "critical" ids <-> crit = true) /\ (In "heating-only" ids <-> crit = false).
Proof.
  intros ids crit.
  destruct (candidates_ids_split b s sh) as (rest & E & Hs & H1 & H2 & H3).
  unfold ids. rewrite E. fold crit.
  assert (Nc : ~ In "critical" rest).
  { intro H. apply (Sublist_In _ _ _ Hs) in H. cbn [app In] in H.
    intuition discriminate. }
  assert (Nh : ~ In "heating-only" rest).
  { intro H. apply (Sublist_In _ _ _ Hs) in H. cbn [app In] in H.
    intuition discriminate. }
  split; [apply in_or_app; right; exact H1|].
  split; [apply in_or_app; right; exact H2|].
  split; [apply in_or_app; right; exact H3|].
  destruct crit; cbn [app In]; split; split.
  - intros _. reflexivity.
  - intros _. left. reflexivity.
  - intros [H|H]; [discriminate H|contradiction].
  - discriminate.
  - intros [H|H]; [discriminate H|contradiction].
  - discriminate.
  - intros _. reflexivity.
  - intros _. left. reflexivity.
Qed.

(** X18: every scenario list contains "basic-needs", "balanced" and
    "max-comfort"; it contains "critical" exactly when the charge is below
    20% and some hour of the day is without grid, and "heating-only"
    exactly otherwise, so always one of the two. *)
Theorem generateScenarios_core_ids (b : BatterySettings) (apps : list Appliance)
    (ps : PowerSchedule) (h : Q) :
  let ids := map sc_id (generateScenarios b apps ps h) in
  let tot := totalOutageHours (analyzeSituation b ps h) in
  In "basic-needs" ids /\ In "balanced" ids /\ In "max-comfort" ids /\
  (In "critical" ids <-> currentCharge b < 20 /\ (0 < tot)%nat) /\
  (In "heating-only" ids <-> ~ (currentCharge b < 20 /\ (0 < tot)%nat)).
Proof.
  intros ids tot.
  assert (P : forall x, In x ids <->
                In x (map candidateId (candidates b (analyzeSituation b ps h) (Qfloor h)))).
  { intro x. pose proof (generateScenarios_ids b apps ps h) as Hp. split; intro Hx.
    - exact (Permutation_in _ Hp Hx).
    - exact (Permutation_in _ (Permutation_sym Hp) Hx). }
  destruct (candidates_core_ids b (analyzeSituation b ps h) (Qfloor h))
    as (H1 & H2 & H3 & H4 & H5).
  assert (C : Qltb (currentCharge b) 20 && (0 <? tot)%nat = true <->
              currentCharge b < 20 /\ (0 < tot)%nat).
  { rewrite andb_true_iff, Qltb_iff, Nat.ltb_lt. reflexivity. }
  rewrite !P. split; [exact H1|]. split; [exact H2|]. split; [exact H3|].
  split.
  - rewrite H4. exact C.
  - rewrite H5. rewrite <- C. destruct (_ && _); split; congruence.
Qed.

(** ** Energy reported by the simulation *)

Lemma consumption_fold_nonneg (l : list TimelinePoint) (acc : Q) :
  0 <= acc -> Forall (fun p => 0 <= consumption p) l ->
  0 <= fold_left (fun sum p => sum + consumption p) l acc.
Proof.
  intros Hacc H. revert acc Hacc.
  induction H as [|p l Hp _ IH]; intros acc Hacc; cbn [fold_left]; [exact Hacc|].
  apply IH. lra.
Qed.

(** X19: with non-negative appliance powers, the energy [simulate] reports
    is never negative, and it is 0 when the grid is on at every hour of the
    timeline. *)
Theorem simulate_energy (b : BatterySettings) (apps : list Appliance)
    (ps : PowerSchedule) (h : Q) (Hpow : Forall (fun a => 0 <= power a) apps) :
  0 <= sim_energyUsed (simulate b apps ps h) /\
  (Forall (fun p => charging p = true) (timelineData (calculateBatteryStatus b apps ps h)) ->
   sim_energyUsed (simulate b apps ps h) == 0).
Proof.
  assert (Hc : Forall (fun p => 0 <= consumption p)
                 (timelineData (calculateBatteryStatus b apps ps h))).
  { change (timelineData (calculateBatteryStatus b apps ps h))
      with (generateTimeline b apps (periods ps) h).
    eapply Forall_impl; [|apply timelineLoop_points].
    cbv zeta. intros p (_ & E & _). rewrite E.
    destruct (charging p); [apply Qle_refl|apply active_power_nonneg; exact Hpow]. }
  unfold simulate. cbv zeta.
  destruct (fold_left _ (timelineData (calculateBatteryStatus b apps ps h)) (PosInf, 0%Z)).
  cbn [sim_energyUsed].
  split.
  - apply Qle_trans with (round1 0); [vm_compute; intro H; discriminate H|].
    apply round1_le. apply consumption_fold_nonneg; [apply Qle_refl|].
    apply Forall_forall. intros p Hp. apply filter_In in Hp.
    rewrite Forall_forall in Hc. apply Hc. apply Hp.
  - intro Hall.
    assert (E : filter (fun p => negb (charging p))
                  (timelineData (calculateBatteryStatus b apps ps h)) = []).
    { clear Hc. induction Hall as [|p l Hp _ IH]; [reflexivity|].
      cbn [filter]. rewrite Hp. cbn [negb]. exact IH. }
    rewrite E. reflexivity.
Qed.

Lemma simulate_energy_witness :
  Forall (fun a => 0 <= power a) demoAppliances /\
  0 <= sim_energyUsed (simulate demoBattery demoAppliances demoSchedule 10) /\
  (Forall (fun p => charging p = true)
     (timelineData (calculateBatteryStatus demoBattery demoAppliances demoSchedule 10)) ->
   sim_energyUsed (simulate demoBattery demoAppliances demoSchedule 10) == 0).
Proof.
  assert (Hpow : Forall (fun a => 0 <= power a) demoAppliances).
  { repeat constructor; simpl; discriminate. }
  split; [exact Hpow|].
  exact (simulate_energy demoBattery demoAppliances demoSchedule 10 Hpow).
Defined.
